(** * cortex-mcp: the bulk analysis tool [cortex_analyze_observable]

    A shallow embedding of [src/tools/bulk.ts] (the handler registered by
    [registerBulkTools]), of the types of [src/types.ts] it touches and of
    the client interface of [src/client.ts] it calls, followed by the
    properties of the two-stage fan-out and of the aggregation. *)

From Stdlib Require Import ZArith Lia Ascii String.
From stdpp Require Import base list strings pretty gmap.

#[local] Set Warnings "-register-all".

Local Open Scope Z_scope.
Local Open Scope nat_scope.

(** ** The part of the JavaScript runtime the handler relies on *)

Module Js.

(** A thrown value (equally: the reason of a rejected promise).  The
    handler only ever asks [reason instanceof Error] and then reads
    [reason.message], or takes [String(reason)] of anything else. *)
Inductive Thrown : Type :=
| ThrownError (name message : string)
| ThrownValue (rendered : string).

(** [e instanceof Error ? e.message : String(e)] *)
Definition reason_text (e : Thrown) : string :=
  match e with
  | ThrownError _ message => message
  | ThrownValue rendered => rendered
  end.

(** Reading a property of [undefined]. *)
Definition TypeError_undefined (prop : string) : Thrown :=
  ThrownError "TypeError"
    ("Cannot read properties of undefined (reading '" +:+ prop +:+ "')").

(** How a promise ends. *)
Inductive Settled (A : Type) : Type :=
| Fulfilled (value : A)
| Rejected (reason : Thrown).
Arguments Fulfilled {A} value.
Arguments Rejected {A} reason.

Definition is_fulfilled {A} (r : Settled A) : bool :=
  match r with Fulfilled _ => true | Rejected _ => false end.

Definition is_rejected {A} (r : Settled A) : bool :=
  match r with Fulfilled _ => false | Rejected _ => true end.

(** The elements of the array [Promise.allSettled] resolves to are
    objects, and [Array.prototype.indexOf] compares objects by identity:
    every result object carries the reference it was allocated at. *)
Definition ObjRef : Type := nat.

Record Obj (A : Type) : Type := mkObj { ref : ObjRef; obj : A }.
Arguments mkObj {A} ref obj.
Arguments ref {A} o.
Arguments obj {A} o.

(** [Promise.allSettled(promises)], once every promise has settled: one
    fresh result object per promise, at the promise's own position. *)
Definition allSettled {A} (outcomes : list (Settled A))
  : list (Obj (Settled A)) :=
  imap (fun i o => mkObj i o) outcomes.

(** The same, as the runtime does it: a slot array as long as the input,
    the slot of promise [k] written when promise [k] settles.  [order]
    lists the promises in the order in which they settle. *)
Definition settle_slot {A} (outcomes : list (Settled A))
    (slots : list (option (Obj (Settled A)))) (k : nat)
  : list (option (Obj (Settled A))) :=
  match outcomes !! k with
  | Some o => <[k := Some (mkObj k o)]> slots
  | None => slots
  end.

Definition allSettled_slots {A} (outcomes : list (Settled A))
    (order : list nat) : list (option (Obj (Settled A))) :=
  foldl (settle_slot outcomes) (replicate (length outcomes) None) order.

(** [arr.indexOf(x)] for an array of objects: the first position holding
    the very same object, [-1] when there is none. *)
Fixpoint indexOf_from {A} (arr : list (Obj A)) (x : Obj A) (i : nat) : Z :=
  match arr with
  | [] => (-1)%Z
  | y :: arr' =>
      if Nat.eqb (ref y) (ref x) then Z.of_nat i
      else indexOf_from arr' x (S i)
  end.

Definition indexOf {A} (arr : list (Obj A)) (x : Obj A) : Z :=
  indexOf_from arr x 0.

(** [arr[i]] for a number [i]: [undefined] outside the array. *)
Definition at_index {A} (arr : list A) (i : Z) : option A :=
  if (i <? 0)%Z then None else arr !! Z.to_nat i.

(** [arr.includes(s)] on an array of strings. *)
Definition includes (arr : list string) (s : string) : bool :=
  existsb (String.eqb s) arr.

(** [arr.map((x, i) => f(x, i))] with a callback that may throw: the
    first throw ends the whole call. *)
Fixpoint map_throwing {A B} (f : A -> nat -> Thrown + B) (arr : list A)
    (i : nat) : Thrown + list B :=
  match arr with
  | [] => inr []
  | x :: arr' =>
      match f x i with
      | inl e => inl e
      | inr y =>
          match map_throwing f arr' (S i) with
          | inl e => inl e
          | inr ys => inr (y :: ys)
          end
      end
  end.

(** Values handed to [JSON.stringify]. *)
Inductive Value : Type :=
| VUndefined
| VNull
| VBool (b : bool)
| VNumber (n : Z)
| VString (s : string)
| VArray (items : list Value)
| VObject (props : list (string * Value)).

(** What [JSON.stringify] writes: an own property whose value is
    [undefined] is left out, an [undefined] array element becomes
    [null], and [undefined] itself has no serialization. *)
Inductive Json : Type :=
| JNull
| JBool (b : bool)
| JNumber (n : Z)
| JString (s : string)
| JArray (items : list Json)
| JObject (members : list (string * Json)).

Fixpoint JSON_tree (v : Value) : option Json :=
  match v with
  | VUndefined => None
  | VNull => Some JNull
  | VBool b => Some (JBool b)
  | VNumber n => Some (JNumber n)
  | VString s => Some (JString s)
  | VArray items =>
      Some (JArray (List.map (fun x => default JNull (JSON_tree x)) items))
  | VObject props =>
      Some (JObject (List.flat_map
        (fun kv => match JSON_tree (snd kv) with
                   | Some j => [(fst kv, j)]
                   | None => []
                   end) props))
  end.

Definition dquote : string := String "034"%char EmptyString.
Definition backslash : string := String "092"%char EmptyString.
Definition newline : string := String "010"%char EmptyString.

Definition hex_digit (n : nat) : string :=
  String (match n with
          | 0 => "0" | 1 => "1" | 2 => "2" | 3 => "3" | 4 => "4"
          | 5 => "5" | 6 => "6" | 7 => "7" | 8 => "8" | 9 => "9"
          | 10 => "a" | 11 => "b" | 12 => "c" | 13 => "d" | 14 => "e"
          | _ => "f"
          end)%char EmptyString.

(** One code unit of a quoted JSON string. *)
Definition quote_char (c : ascii) : string :=
  let n := nat_of_ascii c in
  if Nat.eqb n 34 then backslash +:+ dquote
  else if Nat.eqb n 92 then backslash +:+ backslash
  else if Nat.eqb n 8 then backslash +:+ "b"
  else if Nat.eqb n 9 then backslash +:+ "t"
  else if Nat.eqb n 10 then backslash +:+ "n"
  else if Nat.eqb n 12 then backslash +:+ "f"
  else if Nat.eqb n 13 then backslash +:+ "r"
  else if Nat.ltb n 32 then
    backslash +:+ "u00" +:+ hex_digit (n / 16) +:+ hex_digit (n mod 16)
  else String c EmptyString.

Fixpoint quote_chars (s : string) : string :=
  match s with
  | EmptyString => EmptyString
  | String c s' => quote_char c +:+ quote_chars s'
  end.

Definition quote (s : string) : string := dquote +:+ quote_chars s +:+ dquote.

Fixpoint join (sep : string) (parts : list string) : string :=
  match parts with
  | [] => EmptyString
  | [p] => p
  | p :: parts' => p +:+ sep +:+ join sep parts'
  end.

(** The text of a tree with the two-space gap of
    [JSON.stringify(value, null, 2)]; [indent] is the indentation of the
    enclosing line. *)
Fixpoint JSON_render (indent : string) (j : Json) : string :=
  match j with
  | JNull => "null"
  | JBool true => "true"
  | JBool false => "false"
  | JNumber n => pretty n
  | JString s => quote s
  | JArray [] => "[]"
  | JArray items =>
      let inner := indent +:+ "  " in
      "[" +:+ newline +:+ inner
      +:+ join ("," +:+ newline +:+ inner)
               (List.map (JSON_render inner) items)
      +:+ newline +:+ indent +:+ "]"
  | JObject [] => "{}"
  | JObject members =>
      let inner := indent +:+ "  " in
      "{" +:+ newline +:+ inner
      +:+ join ("," +:+ newline +:+ inner)
               (List.map (fun kv => quote (fst kv) +:+ ": "
                                    +:+ JSON_render inner (snd kv)) members)
      +:+ newline +:+ indent +:+ "}"
  end.

(** [JSON.stringify(v, null, 2)]; [None] is the [undefined] it returns
    for an [undefined] value. *)
Definition JSON_stringify (v : Value) : option string :=
  JSON_render EmptyString <$> JSON_tree v.

(** Member lookup in a serialized object. *)
Definition member (key : string) (j : Json) : option Json :=
  match j with
  | JObject members => snd <$> List.find (fun kv => String.eqb key (fst kv)) members
  | _ => None
  end.

Definition keys (j : Json) : list string :=
  match j with
  | JObject members => List.map fst members
  | _ => []
  end.

End Js.

Export Js.

(** ** The types of [src/types.ts] the handler reads

    Optional fields the handler never reads ([cortexIds], [rate],
    [analyzerId], [full], [artifacts], ...) are left out.  The string unions
    ([Job.status], [Taxonomy.level]) are kept as the strings they are at
    run time. *)

Module Analyzer.
Record t : Type := mk {
  id : string;
  name : string;
  version : string;
  description : string;
  dataTypeList : list string;
}.
End Analyzer.

Module Job.
Record t : Type := mk {
  id : string;
  status : string;
}.
End Job.

Module Taxonomy.
Record t : Type := mk {
  level : string;
  namespace : string;
  predicate : string;
  value : string;
}.
End Taxonomy.

Module ReportSummary.
Record t : Type := mk {
  taxonomies : option (list Taxonomy.t);
}.
End ReportSummary.

Module JobReport.
Record body : Type := mkBody {
  summary : option ReportSummary.t;
  success : option bool;
}.
Record t : Type := mk {
  id : string;
  status : string;
  report : option body;
}.
End JobReport.

Module RunAnalyzerRequest.
Record t : Type := mk {
  data : string;
  dataType : string;
  tlp : Z;
  pap : Z;
  message : option string;
}.
End RunAnalyzerRequest.

(** ** The client, as the handler sees it ([src/client.ts])

    Each method returns a promise; how the promise settles is decided by
    the Cortex server, whose state [W] a call may change (the tests mock
    the methods with call counters).  A call meets the state the calls
    issued before it have left; the order in which the promises settle
    is that of [allSettled_slots] and plays no part here. *)

Record CortexClient (W : Type) : Type := mkClient {
  listAnalyzers : W -> Settled (list Analyzer.t) * W;
  runAnalyzer : string -> RunAnalyzerRequest.t -> W -> Settled Job.t * W;
  waitAndGetReport : string -> Z -> W -> Settled JobReport.t * W;
}.
Arguments mkClient {W}.
Arguments listAnalyzers {W} c w.
Arguments runAnalyzer {W} c analyzerId data w.
Arguments waitAndGetReport {W} c jobId timeoutSeconds w.

(** The client calls a handler run has issued, oldest first. *)
Inductive Call : Type :=
| CallListAnalyzers
| CallRunAnalyzer (analyzerId : string) (data : RunAnalyzerRequest.t)
| CallWaitAndGetReport (jobId : string) (timeoutSeconds : Z).

Record St (W : Type) : Type := mkSt { world : W; calls : list Call }.
Arguments mkSt {W}.
Arguments world {W} s.
Arguments calls {W} s.

(** ** How a client call fails ([CortexClient.request], [src/client.ts]) *)

(** What [request] reads of the response [fetch] resolved to; [text] and
    [json] are how the promises of [response.text()] and
    [response.json()] settle. *)
Module Response.
Record t (T : Type) : Type := mk {
  ok : bool;
  status : Z;
  statusText : string;
  text : Settled string;
  json : Settled T;
}.
Arguments mk {T}.
Arguments ok {T} _.
Arguments status {T} _.
Arguments statusText {T} _.
Arguments text {T} _.
Arguments json {T} _.
End Response.

(** Lines 45-51. *)
Definition messages (status : Z) : option string :=
  if (status =? 401)%Z then Some "Invalid API key or unauthorized access"
  else if (status =? 403)%Z then Some "Forbidden - insufficient permissions"
  else if (status =? 404)%Z then Some "Resource not found"
  else if (status =? 429)%Z then Some "Rate limit exceeded"
  else if (status =? 500)%Z then Some "Cortex internal server error"
  else None.

(** Lines 59-63: the [catch] clause. *)
Definition request_catch (timeout : Z) (error : Thrown) : Thrown :=
  match error with
  | ThrownError name _ =>
      if String.eqb name "AbortError"
      then ThrownError "Error"
             ("Cortex API timeout after " +:+ pretty timeout +:+ "ms")
      else error
  | ThrownValue _ => error
  end.

(** Lines 36-63: [request], given how the [fetch] it awaits settles.  The
    promise of [response.json()] is returned, not awaited: its rejection
    does not pass through the [catch] clause. *)
Definition request {T} (timeout : Z) (fetched : Settled (Response.t T))
  : Settled T :=
  match fetched with
  | Rejected error => Rejected (request_catch timeout error)
  | Fulfilled response =>
      if negb (Response.ok response) then
        let body :=
          match Response.text response with
          | Fulfilled b => b
          | Rejected _ => EmptyString
          end in
        let msg :=
          default ("HTTP " +:+ pretty (Response.status response) +:+ ": "
                   +:+ Response.statusText response)
                  (messages (Response.status response)) in
        Rejected
          (request_catch timeout
             (ThrownError "Error"
                ("Cortex API error: " +:+ msg +:+
                 match body with
                 | EmptyString => EmptyString
                 | String _ _ => " - " +:+ body
                 end)))
      else Response.json response
  end.

(** The three endpoints the handler reaches, as [fetch] answers them, and
    [this.timeout]. *)
Record Transport (W : Type) : Type := mkTransport {
  timeout : Z;
  fetch_analyzer : W -> Settled (Response.t (list Analyzer.t)) * W;
  fetch_analyzer_run :
    string -> RunAnalyzerRequest.t -> W -> Settled (Response.t Job.t) * W;
  fetch_job_waitreport :
    string -> Z -> W -> Settled (Response.t JobReport.t) * W;
}.
Arguments mkTransport {W}.
Arguments timeout {W} t.
Arguments fetch_analyzer {W} t w.
Arguments fetch_analyzer_run {W} t analyzerId data w.
Arguments fetch_job_waitreport {W} t jobId timeoutSeconds w.

(** Lines 71-73, 79-90 and 104-111: the methods are [request] at their
    endpoint. *)
Definition client_over {W} (t : Transport W) : CortexClient W :=
  mkClient
    (fun w =>
       let (fetched, w') := fetch_analyzer t w in
       (request (timeout t) fetched, w'))
    (fun analyzerId data w =>
       let (fetched, w') := fetch_analyzer_run t analyzerId data w in
       (request (timeout t) fetched, w'))
    (fun jobId timeoutSeconds w =>
       let (fetched, w') := fetch_job_waitreport t jobId timeoutSeconds w in
       (request (timeout t) fetched, w')).

(** ** The handler of [cortex_analyze_observable] ([src/tools/bulk.ts]) *)

(** The validated arguments of the tool. *)
Module Args.
Record t : Type := mk {
  dataType : string;
  data : string;
  tlp : Z;
  pap : Z;
  timeout : Z;
}.
End Args.

(** [{ content: [{ type: "text", text }], isError }]; [isError] is [false]
    where the source leaves the field out, and [text] is [None] where
    [JSON.stringify] would return [undefined]. *)
Record ToolResponse : Type := mkResponse {
  text : option string;
  isError : bool;
}.

(** [{ analyzer, jobId }], the value of a fulfilled submission. *)
Module Submitted.
Record t : Type := mk { analyzer : string; jobId : string }.
End Submitted.

(** [{ analyzer, error }], an entry of [failed]. *)
Module Failed.
Record t : Type := mk { analyzer : string; error : string }.
End Failed.

(** [{ analyzer, report }], the value of a fulfilled wait. *)
Module Completed.
Record t : Type := mk { analyzer : string; report : JobReport.t }.
End Completed.

(** [Taxonomy & { analyzer }], an element of [allTaxonomies]. *)
Module Tagged.
Record t : Type := mk { taxonomy : Taxonomy.t; analyzer : string }.
End Tagged.

(** [{ analyzer, status, taxonomies }], an element of [results]. *)
Module Result.
Record t : Type := mk {
  analyzer : string;
  status : string;
  taxonomies : list string;
}.
End Result.

Section Handler.

Context {W : Type} (client : CortexClient W).

Definition call_listAnalyzers (s : St W)
  : Settled (list Analyzer.t) * St W :=
  let (r, w) := listAnalyzers client (world s) in
  (r, mkSt w (calls s ++ [CallListAnalyzers])).

Definition call_runAnalyzer (analyzerId : string)
    (data : RunAnalyzerRequest.t) (s : St W) : Settled Job.t * St W :=
  let (r, w) := runAnalyzer client analyzerId data (world s) in
  (r, mkSt w (calls s ++ [CallRunAnalyzer analyzerId data])).

Definition call_waitAndGetReport (jobId : string) (timeoutSeconds : Z)
    (s : St W) : Settled JobReport.t * St W :=
  let (r, w) := waitAndGetReport client jobId timeoutSeconds (world s) in
  (r, mkSt w (calls s ++ [CallWaitAndGetReport jobId timeoutSeconds])).

(** [arr.map(async (x) => ...)]: the callbacks start in array order, one
    promise each. *)
Fixpoint fan_out {A B} (f : A -> St W -> Settled B * St W) (arr : list A)
    (s : St W) : list (Settled B) * St W :=
  match arr with
  | [] => ([], s)
  | x :: arr' =>
      let (r, s1) := f x s in
      let (rs, s2) := fan_out f arr' s1 in
      (r :: rs, s2)
  end.

(** Line 44: [allAnalyzers.filter((a) => a.dataTypeList.includes(dataType))] *)
Definition applicable_of (args : Args.t) (allAnalyzers : list Analyzer.t)
  : list Analyzer.t :=
  List.filter
    (fun a => includes (Analyzer.dataTypeList a) (Args.dataType args))
    allAnalyzers.

(** Lines 61-69: the callback of the submission stage. *)
Definition submit (args : Args.t) (analyzer : Analyzer.t) (s : St W)
  : Settled Submitted.t * St W :=
  let (r, s') :=
    call_runAnalyzer (Analyzer.id analyzer)
      (RunAnalyzerRequest.mk (Args.data args) (Args.dataType args)
         (Args.tlp args) (Args.pap args) None) s in
  (match r with
   | Fulfilled job =>
       Fulfilled (Submitted.mk (Analyzer.name analyzer) (Job.id job))
   | Rejected e => Rejected e
   end, s').

(** Lines 72-77: [.filter(r => r.status === "fulfilled").map(r => r.value)] *)
Definition fulfilled_values {A} (settled : list (Obj (Settled A))) : list A :=
  List.flat_map
    (fun r => match obj r with Fulfilled v => [v] | Rejected _ => [] end)
    settled.

(** Lines 79-82: [.filter(r => r.status === "rejected")], each kept with
    its reason. *)
Definition rejected_reasons {A} (settled : list (Obj (Settled A)))
  : list Thrown :=
  List.flat_map
    (fun r => match obj r with Fulfilled _ => [] | Rejected e => [e] end)
    settled.

(** Lines 83-86: the callback [(r, i) => ({ analyzer: applicable[i].name,
    error: ... })]; [i] is the position in the filtered array. *)
Definition failed_entry (applicable : list Analyzer.t) (r : Thrown)
    (i : nat) : Thrown + Failed.t :=
  match applicable !! i with
  | Some a => inr (Failed.mk (Analyzer.name a) (reason_text r))
  | None => inl (TypeError_undefined "name")
  end.

(** Lines 79-86: [failed]. *)
Definition failed_of {A} (applicable : list Analyzer.t)
    (submissions : list (Obj (Settled A))) : Thrown + list Failed.t :=
  map_throwing (failed_entry applicable) (rejected_reasons submissions) 0.

(** Lines 90-93: the callback of the completion stage. *)
Definition await_report (args : Args.t) (job : Submitted.t) (s : St W)
  : Settled Completed.t * St W :=
  let (r, s') :=
    call_waitAndGetReport (Submitted.jobId job) (Args.timeout args) s in
  (match r with
   | Fulfilled report =>
       Fulfilled (Completed.mk (Submitted.analyzer job) report)
   | Rejected e => Rejected e
   end, s').

(** The client call each callback issues. *)
Definition submit_call (args : Args.t) (analyzer : Analyzer.t) : Call :=
  CallRunAnalyzer (Analyzer.id analyzer)
    (RunAnalyzerRequest.mk (Args.data args) (Args.dataType args)
       (Args.tlp args) (Args.pap args) None).

Definition wait_call (args : Args.t) (job : Submitted.t) : Call :=
  CallWaitAndGetReport (Submitted.jobId job) (Args.timeout args).

(** Line 107: [report.report?.summary?.taxonomies ?? []] *)
Definition taxonomies_of (report : JobReport.t) : list Taxonomy.t :=
  match JobReport.report report with
  | Some body =>
      match JobReport.summary body with
      | Some summary => default [] (ReportSummary.taxonomies summary)
      | None => []
      end
  | None => []
  end.

(** Line 116: the rendering of one taxonomy. *)
Definition render_taxonomy (t : Taxonomy.t) : string :=
  "[" +:+ Taxonomy.level t +:+ "] " +:+ Taxonomy.namespace t +:+ ":"
  +:+ Taxonomy.predicate t +:+ " = " +:+ Taxonomy.value t.

(** The two arrays the loop of lines 104-129 pushes to. *)
Record Aggregate : Type := mkAggregate {
  allTaxonomies : list Tagged.t;
  results : list Result.t;
}.

(** One iteration of [for (const result of reports)]. *)
Definition aggregate_step (submitted : list Submitted.t)
    (reports : list (Obj (Settled Completed.t))) (acc : Aggregate)
    (result : Obj (Settled Completed.t)) : Aggregate :=
  match obj result with
  | Fulfilled v =>
      let analyzer := Completed.analyzer v in
      let report := Completed.report v in
      let taxonomies := taxonomies_of report in
      mkAggregate
        (foldl (fun all t => all ++ [Tagged.mk t analyzer])
               (allTaxonomies acc) taxonomies)
        (results acc ++
           [Result.mk analyzer (JobReport.status report)
              (List.map render_taxonomy taxonomies)])
  | Rejected reason =>
      mkAggregate
        (allTaxonomies acc)
        (results acc ++
           [Result.mk
              (default "unknown"
                 (Submitted.analyzer <$>
                    at_index submitted (indexOf reports result)))
              "Error"
              ["Error: " +:+ reason_text reason]])
  end.

Definition aggregate (submitted : list Submitted.t)
    (reports : list (Obj (Settled Completed.t))) : Aggregate :=
  foldl (aggregate_step submitted reports) (mkAggregate [] []) reports.

(** Lines 133-138: [allTaxonomies.filter((t) => t.level === l).length] *)
Definition level_count (l : string) (all : list Tagged.t) : nat :=
  length (List.filter
            (fun t => String.eqb (Taxonomy.level (Tagged.taxonomy t)) l) all).

Definition result_value (r : Result.t) : Value :=
  VObject [("analyzer", VString (Result.analyzer r));
           ("status", VString (Result.status r));
           ("taxonomies", VArray (List.map VString (Result.taxonomies r)))].

Definition failed_value (f : Failed.t) : Value :=
  VObject [("analyzer", VString (Failed.analyzer f));
           ("error", VString (Failed.error f))].

(** Lines 132-154: the object handed to [JSON.stringify]. *)
Definition report_value (args : Args.t) (submitted : list Submitted.t)
    (failed : list Failed.t) (agg : Aggregate) : Value :=
  let all := allTaxonomies agg in
  VObject
    [("observable",
      VObject [("dataType", VString (Args.dataType args));
               ("data", VString (Args.data args))]);
     ("analyzersRun", VNumber (Z.of_nat (length submitted)));
     ("analyzersFailed", VNumber (Z.of_nat (length failed)));
     ("summary",
      VObject [("malicious", VNumber (Z.of_nat (level_count "malicious" all)));
               ("suspicious", VNumber (Z.of_nat (level_count "suspicious" all)));
               ("info", VNumber (Z.of_nat (level_count "info" all)));
               ("safe", VNumber (Z.of_nat (level_count "safe" all)))]);
     ("results", VArray (List.map result_value (results agg)));
     ("submissionErrors",
      if Nat.ltb 0 (length failed)
      then VArray (List.map failed_value failed)
      else VUndefined)].

(** Line 53. *)
Definition no_analyzers_text (args : Args.t) : string :=
  "No analyzers found that support data type " +:+ dquote
  +:+ Args.dataType args +:+ dquote +:+ ".".

(** Line 166. *)
Definition error_text (error : Thrown) : string :=
  "Error analyzing observable: " +:+ reason_text error.

(** Lines 41-160: the body of [try]; [inl] is a throw that reaches the
    [catch]. *)
Definition handler_try (args : Args.t) (s : St W)
  : (Thrown + ToolResponse) * St W :=
  let (listed, s1) := call_listAnalyzers s in
  match listed with
  | Rejected e => (inl e, s1)
  | Fulfilled allAnalyzers =>
      let applicable := applicable_of args allAnalyzers in
      if Nat.eqb (length applicable) 0 then
        (inr (mkResponse (Some (no_analyzers_text args)) false), s1)
      else
        let (submit_outcomes, s2) := fan_out (submit args) applicable s1 in
        let submissions := allSettled submit_outcomes in
        let submitted := fulfilled_values submissions in
        match failed_of applicable submissions with
        | inl e => (inl e, s2)
        | inr failed =>
            let (wait_outcomes, s3) :=
              fan_out (await_report args) submitted s2 in
            let reports := allSettled wait_outcomes in
            let agg := aggregate submitted reports in
            (inr (mkResponse
                    (JSON_stringify (report_value args submitted failed agg))
                    false), s3)
        end
  end.

(** Lines 40-172: the handler. *)
Definition handler (args : Args.t) (s : St W) : ToolResponse * St W :=
  match handler_try args s with
  | (inr response, s') => (response, s')
  | (inl error, s') => (mkResponse (Some (error_text error)) true, s')
  end.

End Handler.

(** ** The stages of one run, named

    The values the handler binds on its way ([applicable], [submissions],
    [submitted], [failed], [reports], ...), as functions of the client, the
    arguments and the state the run starts in.  [handler_run] below shows
    that the handler's answer is built from exactly these. *)

Section Run.

Context {W : Type} (client : CortexClient W) (args : Args.t) (s : St W).

Definition run_listed : Settled (list Analyzer.t) :=
  (call_listAnalyzers client s).1.

Definition run_s1 : St W := (call_listAnalyzers client s).2.

Definition run_applicable : list Analyzer.t :=
  match run_listed with
  | Fulfilled allAnalyzers => applicable_of args allAnalyzers
  | Rejected _ => []
  end.

Definition run_submit_outcomes : list (Settled Submitted.t) :=
  (fan_out (submit client args) run_applicable run_s1).1.

Definition run_s2 : St W :=
  (fan_out (submit client args) run_applicable run_s1).2.

Definition run_submissions : list (Obj (Settled Submitted.t)) :=
  allSettled run_submit_outcomes.

Definition run_submitted : list Submitted.t :=
  fulfilled_values run_submissions.

Definition run_failed : Thrown + list Failed.t :=
  failed_of run_applicable run_submissions.

(** What [failed] evaluates to ([run_failed_total]): the [i]-th rejection
    reason next to the name of the [i]-th applicable analyzer. *)
Definition run_failed_list : list Failed.t :=
  zip_with (fun a e => Failed.mk (Analyzer.name a) (reason_text e))
    run_applicable (rejected_reasons run_submissions).

Definition run_wait_outcomes : list (Settled Completed.t) :=
  (fan_out (await_report client args) run_submitted run_s2).1.

Definition run_s3 : St W :=
  (fan_out (await_report client args) run_submitted run_s2).2.

Definition run_reports : list (Obj (Settled Completed.t)) :=
  allSettled run_wait_outcomes.

Definition run_aggregate : Aggregate :=
  aggregate run_submitted run_reports.

End Run.

(** ** What the specification speaks of *)

Module Spec.

(** The submission outcomes paired with the providers they belong to: the
    [i]-th call is the call to the [i]-th applicable provider. *)
Definition by_provider {A} (applicable : list Analyzer.t)
    (outcomes : list (Settled A)) : list (Analyzer.t * Settled A) :=
  zip applicable outcomes.

(** The Rejected list the specification describes: one entry per provider
    whose submission call failed, with that provider's name and error
    message, in descriptor order. *)
Definition rejected_by_provider {A} (applicable : list Analyzer.t)
    (outcomes : list (Settled A)) : list Failed.t :=
  List.flat_map
    (fun ao => match ao.2 with
               | Rejected e => [Failed.mk (Analyzer.name ao.1) (reason_text e)]
               | Fulfilled _ => []
               end)
    (by_provider applicable outcomes).

(** The values of the fulfilled and the reasons of the rejected outcomes,
    each in the order of the outcomes. *)
Definition values_of {A} (outcomes : list (Settled A)) : list A :=
  List.flat_map
    (fun o => match o with Fulfilled v => [v] | Rejected _ => [] end)
    outcomes.

Definition reasons_of {A} (outcomes : list (Settled A)) : list Thrown :=
  List.flat_map
    (fun o => match o with Fulfilled _ => [] | Rejected e => [e] end)
    outcomes.

(** The number of Submitted and of Rejected submission outcomes. *)
Definition count_submitted {A} (outcomes : list (Settled A)) : nat :=
  length (List.filter is_fulfilled outcomes).

Definition count_rejected {A} (outcomes : list (Settled A)) : nat :=
  length (List.filter is_rejected outcomes).

(** The findings of a completion outcome: those of the payload when the
    wait completed, none when it failed. *)
Definition findings (o : Settled Completed.t) : list Taxonomy.t :=
  match o with
  | Fulfilled v => taxonomies_of (Completed.report v)
  | Rejected _ => []
  end.

(** The number of findings of severity [l] an outcome contributes. *)
Definition contribution (l : string) (o : Settled Completed.t) : nat :=
  length (List.filter (fun t => String.eqb (Taxonomy.level t) l) (findings o)).

(** The per-provider summary of a submitted task and its completion
    outcome. *)
Definition entry_of (job : Submitted.t) (o : Settled Completed.t)
  : Result.t :=
  match o with
  | Fulfilled v =>
      Result.mk (Completed.analyzer v)
        (JobReport.status (Completed.report v))
        (List.map render_taxonomy (taxonomies_of (Completed.report v)))
  | Rejected e =>
      Result.mk (Submitted.analyzer job) "Error"
        ["Error: " +:+ reason_text e]
  end.

(** The payload gives no finding list: [report], [report.summary] or
    [report.summary.taxonomies] is absent. *)
Definition lacks_taxonomies (report : JobReport.t) : bool :=
  match JobReport.report report with
  | None => true
  | Some body =>
      match JobReport.summary body with
      | None => true
      | Some summary =>
          match ReportSummary.taxonomies summary with
          | None => true
          | Some _ => false
          end
      end
  end.

(** The four fixed severity categories. *)
Definition severities : list string :=
  ["info"; "safe"; "suspicious"; "malicious"].

(** A provider appears in a list when an entry of the list carries its
    name. *)
Definition in_submitted (a : Analyzer.t) (l : list Submitted.t) : bool :=
  existsb (fun x => String.eqb (Submitted.analyzer x) (Analyzer.name a)) l.

Definition in_rejected (a : Analyzer.t) (l : list Failed.t) : bool :=
  existsb (fun x => String.eqb (Failed.analyzer x) (Analyzer.name a)) l.

End Spec.

(** ** The serialized report *)

Definition result_json (r : Result.t) : Json :=
  JObject [("analyzer", JString (Result.analyzer r));
           ("status", JString (Result.status r));
           ("taxonomies", JArray (List.map JString (Result.taxonomies r)))].

Definition failed_json (f : Failed.t) : Json :=
  JObject [("analyzer", JString (Failed.analyzer f));
           ("error", JString (Failed.error f))].

Definition summary_json (all : list Tagged.t) : Json :=
  JObject [("malicious", JNumber (Z.of_nat (level_count "malicious" all)));
           ("suspicious", JNumber (Z.of_nat (level_count "suspicious" all)));
           ("info", JNumber (Z.of_nat (level_count "info" all)));
           ("safe", JNumber (Z.of_nat (level_count "safe" all)))].

(** The tree [JSON.stringify] makes of [report_value] ([report_tree]). *)
Definition report_json (args : Args.t) (submitted : list Submitted.t)
    (failed : list Failed.t) (agg : Aggregate) : Json :=
  JObject
    ([("observable",
       JObject [("dataType", JString (Args.dataType args));
                ("data", JString (Args.data args))]);
      ("analyzersRun", JNumber (Z.of_nat (length submitted)));
      ("analyzersFailed", JNumber (Z.of_nat (length failed)));
      ("summary", summary_json (allTaxonomies agg));
      ("results", JArray (List.map result_json (results agg)))]
     ++ match failed with
        | [] => []
        | _ :: _ => [("submissionErrors", JArray (List.map failed_json failed))]
        end).

(** The run ends with the serialized report [tree]: [failed] was built,
    [tree] is what [JSON.stringify] makes of the report object, and the
    handler answers with its text, not flagged as an error. *)
Definition answers_report {W} (client : CortexClient W) (args : Args.t)
    (s : St W) (tree : Json) : Prop :=
  exists failed,
    run_failed client args s = inr failed /\
    JSON_tree (report_value args (run_submitted client args s) failed
                 (run_aggregate client args s)) = Some tree /\
    handler client args s =
      (mkResponse (Some (JSON_render EmptyString tree)) false,
       run_s3 client args s).

(** ** The fixtures of the tests of the bulk tool *)

Module Fixtures.

Definition mockAnalyzers : list Analyzer.t :=
  [Analyzer.mk "VirusTotal_GetReport_3_1" "VirusTotal_GetReport" "3.1"
     "Get VirusTotal report" ["hash"; "ip"; "domain"; "url"];
   Analyzer.mk "AbuseIPDB_1_0" "AbuseIPDB" "1.0"
     "Check IP reputation on AbuseIPDB" ["ip"];
   Analyzer.mk "URLhaus_2_0" "URLhaus" "2.0"
     "Check URL against URLhaus database" ["url"; "domain"]].

Definition report_with (id level namespace predicate value : string)
  : JobReport.t :=
  JobReport.mk id "Success"
    (Some (JobReport.mkBody
             (Some (ReportSummary.mk
                      (Some [Taxonomy.mk level namespace predicate value])))
             (Some true))).

(** The mocks count their calls: the state of the mocked server is the
    pair of [callCount] and [waitCallCount]. *)
Definition Counters : Type := nat * nat.

(** "should run all applicable analyzers and aggregate results" *)
Definition client_all_succeed : CortexClient Counters :=
  mkClient
    (fun w => (Fulfilled mockAnalyzers, w))
    (fun _ _ w =>
       let callCount := S w.1 in
       (Fulfilled (Job.mk ("job_" +:+ pretty callCount) "Waiting"),
        (callCount, w.2)))
    (fun _ _ w =>
       let waitCallCount := S w.2 in
       (Fulfilled
          (if Nat.eqb waitCallCount 1
           then report_with "job_1" "malicious" "VT" "GetReport" "5/87"
           else report_with "job_2" "suspicious" "AbuseIPDB" "Score" "75%"),
        (w.1, waitCallCount))).

(** "should handle partial failures gracefully": the first submission is
    accepted, every later one is rejected. *)
Definition client_partial_failure : CortexClient Counters :=
  mkClient
    (fun w => (Fulfilled mockAnalyzers, w))
    (fun _ _ w =>
       let callCount := S w.1 in
       (if Nat.eqb callCount 1
        then Fulfilled (Job.mk "job_1" "Waiting")
        else Rejected (ThrownError "Error" "Analyzer rate limited"),
        (callCount, w.2)))
    (fun _ _ w =>
       (Fulfilled (report_with "job_1" "safe" "VT" "GetReport" "0/87"), w)).

(** Scenario D: the first wait runs into its deadline, the second
    completes. *)
Definition client_wait_times_out : CortexClient Counters :=
  mkClient
    (fun w => (Fulfilled mockAnalyzers, w))
    (fun _ _ w =>
       let callCount := S w.1 in
       (Fulfilled (Job.mk ("job_" +:+ pretty callCount) "Waiting"),
        (callCount, w.2)))
    (fun _ _ w =>
       let waitCallCount := S w.2 in
       (if Nat.eqb waitCallCount 1
        then Rejected (ThrownError "Error" "Cortex API timeout after 30000ms")
        else Fulfilled
               (report_with "job_2" "suspicious" "AbuseIPDB" "Score" "75%"),
        (w.1, waitCallCount))).

(** A server whose reports carry no [report] field. *)
Definition client_bare_reports : CortexClient Counters :=
  mkClient
    (fun w => (Fulfilled mockAnalyzers, w))
    (fun _ _ w =>
       let callCount := S w.1 in
       (Fulfilled (Job.mk ("job_" +:+ pretty callCount) "Waiting"),
        (callCount, w.2)))
    (fun _ _ w => (Fulfilled (JobReport.mk "job_1" "Failure" None), w)).

(** A server that cannot be reached. *)
Definition client_unreachable : CortexClient Counters :=
  mkClient
    (fun w =>
       (Rejected
          (ThrownError "Error"
             "Cortex API error: Invalid API key or unauthorized access"), w))
    (fun _ _ w => (Rejected (ThrownError "Error" "unreachable"), w))
    (fun _ _ w => (Rejected (ThrownError "Error" "unreachable"), w)).

(** The transport of the client tests ([timeout: 30000]) with a server
    that answers every request with [status] and the body [body]. *)
Definition transport_answering (status : Z) (body : string)
  : Transport Counters :=
  let response {T} : Settled (Response.t T) :=
    Fulfilled (Response.mk false status EmptyString (Fulfilled body)
                 (Rejected (ThrownError "SyntaxError" "Unexpected token"))) in
  mkTransport 30000
    (fun w => (response, w))
    (fun _ _ w => (response, w))
    (fun _ _ w => (response, w)).

(** The same transport with every [fetch] aborted at the deadline. *)
Definition transport_aborting : Transport Counters :=
  let aborted {T} : Settled (Response.t T) :=
    Rejected (ThrownError "AbortError" "This operation was aborted") in
  mkTransport 30000
    (fun w => (aborted, w))
    (fun _ _ w => (aborted, w))
    (fun _ _ w => (aborted, w)).

Definition args_ip : Args.t := Args.mk "ip" "8.8.8.8" 2 2 60.

Definition args_registry : Args.t :=
  Args.mk "registry" ("HKLM" +:+ backslash +:+ "Software" +:+ backslash
                      +:+ "Malware") 2 2 60.

Definition start : St Counters := mkSt (0, 0) [].

End Fixtures.

(** ** The configuration ([src/config.ts]) *)

Module CortexConfig.
Record t : Type := mk {
  url : string;
  apiKey : string;
  verifySsl : bool;
}.
End CortexConfig.

(** Line 21: [url.replace(/\/+$/, "")], the string without the slashes it
    ends with. *)
Fixpoint strip_trailing_slashes (url : string) : string :=
  match url with
  | EmptyString => EmptyString
  | String c url' =>
      match strip_trailing_slashes url' with
      | EmptyString =>
          if Ascii.eqb c "/" then EmptyString else String c EmptyString
      | rest => String c rest
      end
  end.

(** A run of [k] slashes. *)
Fixpoint slashes (k : nat) : string :=
  match k with
  | 0 => EmptyString
  | S k' => String "/" (slashes k')
  end.

(** [!value] for [process.env.NAME]: the variable is unset or empty. *)
Definition env_missing (value : option string) : bool :=
  match value with
  | None | Some EmptyString => true
  | Some (String _ _) => false
  end.

(** Lines 7-25: [getConfig], given [process.env]. *)
Definition getConfig (env : gmap string string) : Thrown + CortexConfig.t :=
  let url := env !! "CORTEX_URL" in
  if env_missing url then
    inl (ThrownError "Error" "CORTEX_URL environment variable is required")
  else
    let apiKey := env !! "CORTEX_API_KEY" in
    if env_missing apiKey then
      inl (ThrownError "Error"
             "CORTEX_API_KEY environment variable is required")
    else
      let verifySsl :=
        match env !! "CORTEX_VERIFY_SSL" with
        | Some v => negb (String.eqb v "false")
        | None => true
        end in
      inr (CortexConfig.mk (strip_trailing_slashes (default EmptyString url))
             (default EmptyString apiKey) verifySsl).

(** ** The requests of the client ([src/client.ts])

    Strings stand for well-formed JavaScript strings by their UTF-8
    bytes, the bytes [encodeURIComponent] escapes one by one. *)

(** The characters [encodeURIComponent] leaves as they are: letters,
    digits and [- _ . ! ~ * ' ( )]. *)
Definition is_unreserved (c : ascii) : bool :=
  let n := nat_of_ascii c in
  (Nat.leb 65 n && Nat.leb n 90) || (Nat.leb 97 n && Nat.leb n 122)
  || (Nat.leb 48 n && Nat.leb n 57)
  || existsb (Nat.eqb n) [45; 95; 46; 33; 126; 42; 39; 40; 41].

Definition HEX_digit (n : nat) : ascii :=
  match n with
  | 0 => "0" | 1 => "1" | 2 => "2" | 3 => "3" | 4 => "4"
  | 5 => "5" | 6 => "6" | 7 => "7" | 8 => "8" | 9 => "9"
  | 10 => "A" | 11 => "B" | 12 => "C" | 13 => "D" | 14 => "E"
  | _ => "F"
  end%char.

Definition percent_escape (c : ascii) : string :=
  let n := nat_of_ascii c in
  String "%" (String (HEX_digit (n / 16))
                (String (HEX_digit (n mod 16)) EmptyString)).

Fixpoint encodeURIComponent (s : string) : string :=
  match s with
  | EmptyString => EmptyString
  | String c s' =>
      (if is_unreserved c then String c EmptyString else percent_escape c)
      +:+ encodeURIComponent s'
  end.

(** [JSON.stringify(value)] without a gap. *)
Fixpoint JSON_compact (j : Json) : string :=
  match j with
  | JNull => "null"
  | JBool true => "true"
  | JBool false => "false"
  | JNumber n => pretty n
  | JString s => quote s
  | JArray items => "[" +:+ join "," (List.map JSON_compact items) +:+ "]"
  | JObject members =>
      "{" +:+ join ","
                (List.map (fun kv => quote (fst kv) +:+ ":"
                                     +:+ JSON_compact (snd kv)) members)
      +:+ "}"
  end.

Definition JSON_stringify_compact (v : Value) : option string :=
  JSON_compact <$> JSON_tree v.

(** The [options] a method hands to [request]. *)
Module RequestInit.
Record t : Type := mk {
  method : option string;
  body : option string;
}.
End RequestInit.

(** A [RunAnalyzerRequest] as an object: [message] is [undefined] when
    absent. *)
Definition RunAnalyzerRequest_value (data : RunAnalyzerRequest.t) : Value :=
  VObject
    [("data", VString (RunAnalyzerRequest.data data));
     ("dataType", VString (RunAnalyzerRequest.dataType data));
     ("tlp", VNumber (RunAnalyzerRequest.tlp data));
     ("pap", VNumber (RunAnalyzerRequest.pap data));
     ("message",
      match RunAnalyzerRequest.message data with
      | Some m => VString m
      | None => VUndefined
      end)].

Module Endpoint.

Definition GET : RequestInit.t := RequestInit.mk None None.

Definition POST (data : Value) : RequestInit.t :=
  RequestInit.mk (Some "POST") (JSON_stringify_compact data).

(** Lines 71-73. *)
Definition listAnalyzers : string * RequestInit.t := ("/analyzer", GET).

(** Lines 75-77. *)
Definition getAnalyzer (analyzerId : string) : string * RequestInit.t :=
  ("/analyzer/" +:+ encodeURIComponent analyzerId, GET).

(** Lines 79-90. *)
Definition runAnalyzer (analyzerId : string) (data : RunAnalyzerRequest.t)
  : string * RequestInit.t :=
  ("/analyzer/" +:+ encodeURIComponent analyzerId +:+ "/run",
   POST (RunAnalyzerRequest_value data)).

(** Lines 94-96. *)
Definition getJob (jobId : string) : string * RequestInit.t :=
  ("/job/" +:+ encodeURIComponent jobId, GET).

(** Lines 98-102. *)
Definition getJobReport (jobId : string) : string * RequestInit.t :=
  ("/job/" +:+ encodeURIComponent jobId +:+ "/report", GET).

(** Lines 104-111; [timeoutSeconds] is an integer below [10^21], which
    JavaScript prints in plain decimal. *)
Definition waitAndGetReport (jobId : string) (timeoutSeconds : Z)
  : string * RequestInit.t :=
  ("/job/" +:+ encodeURIComponent jobId +:+ "/waitreport?atMost="
   +:+ pretty timeoutSeconds +:+ "second", GET).

(** Lines 113-118. *)
Definition searchJobs (query : Value) : string * RequestInit.t :=
  ("/job/_search", POST query).

(** Lines 120-124. *)
Definition getJobArtifacts (jobId : string) : string * RequestInit.t :=
  ("/job/" +:+ encodeURIComponent jobId +:+ "/artifacts", GET).

(** Lines 128-130. *)
Definition listResponders : string * RequestInit.t := ("/responder", GET).

(** Lines 132-143. *)
Definition runResponder (responderId : string) (data : Value)
  : string * RequestInit.t :=
  ("/responder/" +:+ encodeURIComponent responderId +:+ "/run", POST data).

End Endpoint.

(** Lines 20 and 32: the URL [request] fetches for a path. *)
Definition request_url (config : CortexConfig.t) (path : string) : string :=
  (CortexConfig.url config +:+ "/api") +:+ path.

(** Lines 21-24 and 39: the headers of every fetch (no method passes
    headers of its own). *)
Definition request_headers (config : CortexConfig.t)
  : list (string * string) :=
  [("Authorization", "Bearer " +:+ CortexConfig.apiKey config);
   ("Content-Type", "application/json")].

(** The number of occurrences of a character. *)
Fixpoint count_char (c : ascii) (s : string) : nat :=
  match s with
  | EmptyString => 0
  | String d s' => (if Ascii.eqb d c then 1 else 0) + count_char c s'
  end.

(** ** More vocabulary for the bulk tool *)

Module Spec2.

(** The rejected submissions come first: no rejection follows an accepted
    submission. *)
Fixpoint rejections_lead {A} (outcomes : list (Settled A)) : bool :=
  match outcomes with
  | [] => true
  | Rejected _ :: outcomes' => rejections_lead outcomes'
  | Fulfilled _ :: outcomes' => forallb is_fulfilled outcomes'
  end.

(** The level of a finding is one of the four categories. *)
Definition known_level (t : Tagged.t) : bool :=
  existsb (String.eqb (Taxonomy.level (Tagged.taxonomy t))) Spec.severities.

End Spec2.

(** ** More fixtures *)

Module Fixtures2.
Import Fixtures.

(** The first submission is rejected, every later one accepted. *)
Definition client_first_rejected : CortexClient Counters :=
  mkClient
    (fun w => (Fulfilled mockAnalyzers, w))
    (fun _ _ w =>
       let callCount := S w.1 in
       (if Nat.eqb callCount 1
        then Rejected (ThrownError "Error" "Analyzer rate limited")
        else Fulfilled (Job.mk ("job_" +:+ pretty callCount) "Waiting"),
        (callCount, w.2)))
    (fun _ _ w =>
       (Fulfilled (report_with "job_2" "safe" "AbuseIPDB" "Score" "0%"), w)).

(** Every submission is rejected. *)
Definition client_all_rejected : CortexClient Counters :=
  mkClient
    (fun w => (Fulfilled mockAnalyzers, w))
    (fun _ _ w =>
       (Rejected (ThrownError "Error" "Analyzer rate limited"), w))
    (fun _ _ w =>
       (Fulfilled (report_with "job_1" "safe" "VT" "GetReport" "0/87"), w)).

End Fixtures2.

(** ** The analyzer tools ([registerAnalyzerTools]) and the analyzers
    resource ([src/resources.ts]) *)

(** [if (x)] for an optional string argument: given and not empty. *)
Definition truthy (x : option string) : bool :=
  match x with
  | Some (String _ _) => true
  | Some EmptyString | None => false
  end.

(** [s.includes(sub)] on strings. *)
Fixpoint string_includes (s sub : string) : bool :=
  String.prefix sub s
  || match s with
     | EmptyString => false
     | String _ s' => string_includes s' sub
     end.

(** [{ id, name, version, description, dataTypes }] *)
Definition analyzer_summary (a : Analyzer.t) : Value :=
  VObject [("id", VString (Analyzer.id a));
           ("name", VString (Analyzer.name a));
           ("version", VString (Analyzer.version a));
           ("description", VString (Analyzer.description a));
           ("dataTypes", VArray (List.map VString (Analyzer.dataTypeList a)))].

(** [cortex_list_analyzers]: the analyzers left after
    [if (dataType) { analyzers = analyzers.filter(...) }]. *)
Definition listed_analyzers (dataType : option string)
    (analyzers : list Analyzer.t) : list Analyzer.t :=
  if truthy dataType then
    List.filter
      (fun a => includes (Analyzer.dataTypeList a)
                  (default EmptyString dataType))
      analyzers
  else analyzers.

(** [{ contents: [{ uri, mimeType, text }] }] *)
Module ResourceContents.
Record t : Type := mk {
  uri : string;
  mimeType : string;
  text : option string;
}.
End ResourceContents.

(** The arguments of [cortex_run_analyzer_by_name]. *)
Module ByNameArgs.
Record t : Type := mk {
  analyzerName : string;
  dataType : string;
  data : string;
  tlp : Z;
  pap : Z;
}.
End ByNameArgs.

Section AnalyzerTools.

Context {W : Type} (client : CortexClient W).

(** The handler of [cortex_list_analyzers]. *)
Definition list_analyzers_handler (dataType : option string) (s : St W)
  : ToolResponse * St W :=
  let (listed, s1) := call_listAnalyzers client s in
  match listed with
  | Rejected error =>
      (mkResponse (Some ("Error listing analyzers: " +:+ reason_text error))
         true, s1)
  | Fulfilled analyzers =>
      (mkResponse
         (JSON_stringify
            (VArray (List.map analyzer_summary
                       (listed_analyzers dataType analyzers))))
         false, s1)
  end.

(** [src/resources.ts], lines 15-33: the read callback of the resource
    [cortex://analyzers]; nothing catches a failed listing. *)
Definition analyzers_resource (s : St W)
  : Settled ResourceContents.t * St W :=
  let (listed, s1) := call_listAnalyzers client s in
  match listed with
  | Rejected error => (Rejected error, s1)
  | Fulfilled analyzers =>
      (Fulfilled
         (ResourceContents.mk "cortex://analyzers" "application/json"
            (JSON_stringify
               (VArray (List.map analyzer_summary analyzers)))), s1)
  end.

(** [String.prototype.toLowerCase] is the runtime's. *)
Variable toLowerCase : string -> string.

(** The predicate of [analyzers.find(...)]. *)
Definition name_matches (args : ByNameArgs.t) (a : Analyzer.t) : bool :=
  string_includes (toLowerCase (Analyzer.name a))
    (toLowerCase (ByNameArgs.analyzerName args))
  && includes (Analyzer.dataTypeList a) (ByNameArgs.dataType args).

Definition by_name_request (args : ByNameArgs.t) : RunAnalyzerRequest.t :=
  RunAnalyzerRequest.mk (ByNameArgs.data args) (ByNameArgs.dataType args)
    (ByNameArgs.tlp args) (ByNameArgs.pap args) None.

Definition no_match_text (args : ByNameArgs.t) : string :=
  "No analyzer found matching " +:+ dquote +:+ ByNameArgs.analyzerName args
  +:+ dquote +:+ " that supports data type " +:+ dquote
  +:+ ByNameArgs.dataType args +:+ dquote
  +:+ ". Use cortex_list_analyzers to see available analyzers.".

Definition by_name_value (m : Analyzer.t) (job : Job.t) : Value :=
  VObject
    [("jobId", VString (Job.id job));
     ("status", VString (Job.status job));
     ("analyzerUsed",
      VObject [("id", VString (Analyzer.id m));
               ("name", VString (Analyzer.name m))]);
     ("message",
      VString ("Analysis job submitted to " +:+ dquote +:+ Analyzer.name m
               +:+ dquote
               +:+ ". Use cortex_wait_and_get_report with jobId " +:+ dquote
               +:+ Job.id job +:+ dquote +:+ " to get results."))].

Definition by_name_error (error : Thrown) : ToolResponse :=
  mkResponse
    (Some ("Error running analyzer by name: " +:+ reason_text error)) true.

(** The handler of [cortex_run_analyzer_by_name]. *)
Definition run_by_name_handler (args : ByNameArgs.t) (s : St W)
  : ToolResponse * St W :=
  let (listed, s1) := call_listAnalyzers client s in
  match listed with
  | Rejected error => (by_name_error error, s1)
  | Fulfilled analyzers =>
      match List.find (name_matches args) analyzers with
      | None => (mkResponse (Some (no_match_text args)) true, s1)
      | Some m =>
          let (submitted, s2) :=
            call_runAnalyzer client (Analyzer.id m) (by_name_request args)
              s1 in
          match submitted with
          | Rejected error => (by_name_error error, s2)
          | Fulfilled job =>
              (mkResponse (JSON_stringify (by_name_value m job)) false, s2)
          end
      end
  end.

End AnalyzerTools.

(** The arguments of the bulk tool with the data type and the observable
    of a by-name request. *)
Definition bulk_args_of (args : ByNameArgs.t) (timeout : Z) : Args.t :=
  Args.mk (ByNameArgs.dataType args) (ByNameArgs.data args)
    (ByNameArgs.tlp args) (ByNameArgs.pap args) timeout.

(** [toLowerCase] on strings of ASCII characters, for the fixtures. *)
Definition ascii_toLowerCase (s : string) : string :=
  string_of_list_ascii
    (List.map
       (fun c =>
          let n := nat_of_ascii c in
          if Nat.leb 65 n && Nat.leb n 90 then ascii_of_nat (n + 32) else c)
       (list_ascii_of_string s)).

(** ** The job list ([cortex_list_jobs], [src/tools/jobs.ts]) and the
    recent-jobs resource ([src/resources.ts]) *)

(** [Job] of [src/types.ts] with the optional fields the job summaries
    read. *)
Module JobInfo.
Record t : Type := mk {
  id : string;
  analyzerName : option string;
  status : string;
  data : option string;
  dataType : option string;
  startDate : option Z;
  endDate : option Z;
}.
End JobInfo.

Module JobSearchQuery.
Record t : Type := mk {
  query : option Value;
  range : option string;
  sort : option (list string);
}.
End JobSearchQuery.

(** The arguments of [cortex_list_jobs]; [limit] is an integer in
    [1, 500]. *)
Module ListJobsArgs.
Record t : Type := mk {
  dataType : option string;
  analyzerName : option string;
  limit : Z;
  status : option string;
}.
End ListJobsArgs.

(** [client.searchJobs], as the job list sees it. *)
Record JobsClient (W : Type) : Type := mkJobsClient {
  searchJobs : JobSearchQuery.t -> W -> Settled (list JobInfo.t) * W;
}.
Arguments mkJobsClient {W}.
Arguments searchJobs {W} _ query w.

(** [{ _field, _value }] *)
Definition field_clause (field value : string) : Value :=
  VObject [("_field", VString field); ("_value", VString value)].

(** Lines 153-163: [must], one clause pushed per filter that is given and
    not empty. *)
Definition must_of (args : ListJobsArgs.t) : list Value :=
  let must := [] in
  let must :=
    if truthy (ListJobsArgs.dataType args)
    then must ++ [field_clause "dataType"
                    (default EmptyString (ListJobsArgs.dataType args))]
    else must in
  let must :=
    if truthy (ListJobsArgs.analyzerName args)
    then must ++ [field_clause "analyzerName"
                    (default EmptyString (ListJobsArgs.analyzerName args))]
    else must in
  if truthy (ListJobsArgs.status args)
  then must ++ [field_clause "status"
                  (default EmptyString (ListJobsArgs.status args))]
  else must.

(** Lines 165-168. *)
Definition query_of (args : ListJobsArgs.t) : Value :=
  let must := must_of args in
  if Nat.ltb 0 (length must)
  then VObject [("_and", VArray must)]
  else field_clause "status" "*".

(** Lines 170-174: the search the tool issues. *)
Definition list_jobs_search (args : ListJobsArgs.t) : JobSearchQuery.t :=
  JobSearchQuery.mk (Some (query_of args))
    (Some ("0-" +:+ pretty (ListJobsArgs.limit args)))
    (Some ["-createdAt"]).

(** [src/resources.ts], lines 44-48: the search of the resource. *)
Definition recent_jobs_search : JobSearchQuery.t :=
  JobSearchQuery.mk (Some (field_clause "status" "*")) (Some "0-50")
    (Some ["-createdAt"]).

Definition optional_string (x : option string) : Value :=
  match x with
  | Some v => VString v
  | None => VUndefined
  end.

Section JobList.

Context {W : Type} (client : JobsClient W).

(** [new Date(ms).toISOString()] is the runtime's; it throws a
    [RangeError] for a time outside the range of [Date]. *)
Variable toISOString : Z -> Thrown + string.

(** [d ? new Date(d).toISOString() : undefined] *)
Definition date_value (d : option Z) : Thrown + Value :=
  match d with
  | None => inr VUndefined
  | Some ms =>
      if (ms =? 0)%Z then inr VUndefined
      else match toISOString ms with
           | inl error => inl error
           | inr iso => inr (VString iso)
           end
  end.

(** The callback of [jobs.map(...)], the same in both files. *)
Definition job_summary (j : JobInfo.t) (i : nat) : Thrown + Value :=
  match date_value (JobInfo.startDate j) with
  | inl error => inl error
  | inr startDate =>
      match date_value (JobInfo.endDate j) with
      | inl error => inl error
      | inr endDate =>
          inr (VObject
                 [("id", VString (JobInfo.id j));
                  ("analyzerName", optional_string (JobInfo.analyzerName j));
                  ("dataType", optional_string (JobInfo.dataType j));
                  ("data", optional_string (JobInfo.data j));
                  ("status", VString (JobInfo.status j));
                  ("startDate", startDate);
                  ("endDate", endDate)])
      end
  end.

(** The handler of [cortex_list_jobs] ([src/tools/jobs.ts], lines
    151-209). *)
Definition list_jobs_handler (args : ListJobsArgs.t) (w : W)
  : ToolResponse * W :=
  let (found, w') := searchJobs client (list_jobs_search args) w in
  match found with
  | Rejected error =>
      (mkResponse (Some ("Error listing jobs: " +:+ reason_text error)) true,
       w')
  | Fulfilled jobs =>
      match map_throwing job_summary jobs 0 with
      | inl error =>
          (mkResponse (Some ("Error listing jobs: " +:+ reason_text error))
             true, w')
      | inr summary => (mkResponse (JSON_stringify (VArray summary)) false, w')
      end
  end.

(** [src/resources.ts], lines 43-71: the read callback of the resource
    [cortex://jobs/recent]. *)
Definition recent_jobs_resource (w : W) : Settled ResourceContents.t * W :=
  let (found, w') := searchJobs client recent_jobs_search w in
  match found with
  | Rejected error => (Rejected error, w')
  | Fulfilled jobs =>
      match map_throwing job_summary jobs 0 with
      | inl error => (Rejected error, w')
      | inr summary =>
          (Fulfilled
             (ResourceContents.mk "cortex://jobs/recent" "application/json"
                (JSON_stringify (VArray summary))), w')
      end
  end.

End JobList.

(** The arguments [cortex_list_jobs] has when none is given: no filter and
    the default [limit] of 50. *)
Definition list_jobs_defaults : ListJobsArgs.t :=
  ListJobsArgs.mk None None 50 None.

(** The filters without those that are given as the empty string. *)
Definition without_empty_filters (args : ListJobsArgs.t) : ListJobsArgs.t :=
  let drop (x : option string) := if truthy x then x else None in
  ListJobsArgs.mk (drop (ListJobsArgs.dataType args))
    (drop (ListJobsArgs.analyzerName args)) (ListJobsArgs.limit args)
    (drop (ListJobsArgs.status args)).

(** The number of filters given and not empty. *)
Definition filters_given (args : ListJobsArgs.t) : nat :=
  (if truthy (ListJobsArgs.dataType args) then 1 else 0)
  + (if truthy (ListJobsArgs.analyzerName args) then 1 else 0)
  + (if truthy (ListJobsArgs.status args) then 1 else 0).

(** A job-list server for the fixtures: it answers every search with the
    two jobs, and counts the searches. *)
Definition jobs_client_two : JobsClient nat :=
  mkJobsClient
    (fun _ w =>
       (Fulfilled
          [JobInfo.mk "job_1" (Some "VirusTotal_GetReport") "Success"
             (Some "8.8.8.8") (Some "ip") (Some 1706745600000%Z) None;
           JobInfo.mk "job_2" None "Waiting" None None (Some 0%Z) None],
        S w)).

(** Stands for [toISOString] in the fixtures: it knows the one date of the
    fixture and rejects every other time. *)
Definition fixture_toISOString (ms : Z) : Thrown + string :=
  if (ms =? 1706745600000)%Z then inr "2024-02-01T00:00:00.000Z"
  else inl (ThrownError "RangeError" "Invalid time value").

(** A job-list server whose second job carries a time no [Date] holds. *)
Definition jobs_bad_date : list JobInfo.t :=
  [JobInfo.mk "job_1" (Some "VirusTotal_GetReport") "Success"
     (Some "8.8.8.8") (Some "ip") (Some 1706745600000%Z) None;
   JobInfo.mk "job_2" None "Waiting" None None
     (Some 8640000000000001%Z) None].

Definition jobs_client_bad_date : JobsClient nat :=
  mkJobsClient (fun _ w => (Fulfilled jobs_bad_date, S w)).

(** ** The requests behind the calls of the bulk tool *)

(** The path and the options [request] receives for a call of the
    client. *)
Definition request_of_call (c : Call) : string * RequestInit.t :=
  match c with
  | CallListAnalyzers => Endpoint.listAnalyzers
  | CallRunAnalyzer analyzerId data => Endpoint.runAnalyzer analyzerId data
  | CallWaitAndGetReport jobId timeoutSeconds =>
      Endpoint.waitAndGetReport jobId timeoutSeconds
  end.

(** The body of every submission of a bulk run. *)
Definition bulk_submission_body (args : Args.t) : string :=
  JSON_compact
    (JObject [("data", JString (Args.data args));
              ("dataType", JString (Args.dataType args));
              ("tlp", JNumber (Args.tlp args));
              ("pap", JNumber (Args.pap args))]).

(** * Properties

    ** The runtime *)

Section Runtime.
Context {A : Type}.
Implicit Types (outcomes : list (Settled A)) (i k : nat).

Lemma allSettled_length outcomes : length (allSettled outcomes) = length outcomes.
Proof. apply length_imap. Qed.

Lemma allSettled_lookup outcomes i :
  allSettled outcomes !! i = mkObj i <$> outcomes !! i.
Proof. apply list_lookup_imap. Qed.

Lemma allSettled_obj outcomes : obj <$> allSettled outcomes = outcomes.
Proof.
  apply list_eq; intros i.
  rewrite list_lookup_fmap, allSettled_lookup.
  by destruct (outcomes !! i).
Qed.

Lemma allSettled_ref outcomes i r :
  allSettled outcomes !! i = Some r -> ref r = i.
Proof.
  rewrite allSettled_lookup. destruct (outcomes !! i); simpl; [|done].
  by intros [= <-].
Qed.

(** The slot array, whatever the settlement order. *)
Lemma settle_slots_lookup outcomes order :
  forall slots i,
    length slots = length outcomes ->
    foldl (settle_slot outcomes) slots order !! i =
      if decide (i ∈ order)
      then (fun o => Some (mkObj i o)) <$> outcomes !! i
      else slots !! i.
Proof.
  induction order as [|k order IH]; intros slots i Hlen; cbn [foldl].
  - case_decide as Hin; [by apply not_elem_of_nil in Hin | done].
  - rewrite IH.
    2:{ unfold settle_slot. destruct (outcomes !! k); [by rewrite length_insert | done]. }
    case_decide as Hin.
    + rewrite decide_True; [done | by right].
    + unfold settle_slot. destruct (decide (i = k)) as [->|Hne].
      * rewrite decide_True by left.
        destruct (outcomes !! k) eqn:Hk; simpl.
        -- rewrite list_lookup_insert_eq; [done|].
           rewrite Hlen. by eapply lookup_lt_Some.
        -- apply lookup_ge_None. rewrite Hlen. by apply lookup_ge_None.
      * rewrite decide_False; [|rewrite elem_of_cons; tauto].
        destruct (outcomes !! k); [by rewrite list_lookup_insert_ne | done].
Qed.

Lemma allSettled_slots_any_order outcomes order :
  (forall i, i < length outcomes -> i ∈ order) ->
  allSettled_slots outcomes order = Some <$> allSettled outcomes.
Proof.
  intros Hall. apply list_eq; intros i. unfold allSettled_slots.
  rewrite settle_slots_lookup by apply length_replicate.
  rewrite list_lookup_fmap, allSettled_lookup.
  case_decide as Hin.
  - by destruct (outcomes !! i).
  - destruct (outcomes !! i) eqn:Hi; simpl.
    + exfalso. apply Hin, Hall. by eapply lookup_lt_Some.
    + apply lookup_ge_None. rewrite length_replicate. by apply lookup_ge_None.
Qed.

Lemma indexOf_from_allSettled (arr : list (Obj (Settled A))) x base :
  forall i,
    (forall j r, arr !! j = Some r -> ref r = base + j) ->
    arr !! i = Some x ->
    indexOf_from arr x base = Z.of_nat (base + i).
Proof.
  revert base. induction arr as [|y arr IH]; intros base i Href Hi; [done|].
  simpl. destruct i as [|i]; simpl in Hi.
  - injection Hi as ->. rewrite Nat.eqb_refl. f_equal; lia.
  - assert (ref y = base + 0) as Hy by (by apply Href).
    assert (ref x = base + S i) as Hx by (by apply Href).
    rewrite (proj2 (Nat.eqb_neq _ _)) by lia.
    rewrite (IH (S base) i); [f_equal; lia | | done].
    intros j r Hj. rewrite (Href (S j) r Hj). lia.
Qed.

Lemma indexOf_allSettled outcomes i r :
  allSettled outcomes !! i = Some r ->
  indexOf (allSettled outcomes) r = Z.of_nat i.
Proof.
  intros Hi. unfold indexOf.
  rewrite (indexOf_from_allSettled _ _ 0 i); [done | | done].
  intros j r' Hj. by apply allSettled_ref in Hj.
Qed.

Lemma at_index_of_nat {B} (arr : list B) i :
  at_index arr (Z.of_nat i) = arr !! i.
Proof.
  unfold at_index. rewrite (proj2 (Z.ltb_ge _ _)) by lia. by rewrite Nat2Z.id.
Qed.

End Runtime.

(** ** The fan-out *)

Section FanOut.
Context {W : Type} (client : CortexClient W) (args : Args.t).

Lemma fan_out_length {A B} (f : A -> St W -> Settled B * St W) arr s :
  length (fan_out f arr s).1 = length arr.
Proof.
  revert s. induction arr as [|x arr IH]; intros s; simpl; [done|].
  destruct (f x s) as [r s1]. specialize (IH s1).
  destruct (fan_out f arr s1) as [rs s2]. simpl in *. by rewrite IH.
Qed.

(** Every callback of a stage issues exactly one call, in array order. *)
Lemma fan_out_calls {A B} (f : A -> St W -> Settled B * St W)
    (call : A -> Call) arr s :
  (forall x s0, calls (f x s0).2 = calls s0 ++ [call x]) ->
  calls (fan_out f arr s).2 = calls s ++ (call <$> arr).
Proof.
  intros Hf. revert s. induction arr as [|x arr IH]; intros s; simpl.
  - by rewrite app_nil_r.
  - specialize (Hf x s). destruct (f x s) as [r s1]. specialize (IH s1).
    destruct (fan_out f arr s1) as [rs s2]. simpl in *.
    by rewrite IH, Hf, <- app_assoc.
Qed.

Lemma submit_calls a s :
  calls (submit client args a s).2 = calls s ++ [submit_call args a].
Proof.
  unfold submit, call_runAnalyzer, submit_call.
  by destruct (runAnalyzer client _ _ _).
Qed.

Lemma await_report_calls job s :
  calls (await_report client args job s).2 = calls s ++ [wait_call args job].
Proof.
  unfold await_report, call_waitAndGetReport, wait_call.
  by destruct (waitAndGetReport client _ _ _).
Qed.

End FanOut.

(** ** The two lists of the submission stage *)

Section Partition.
Context {A : Type}.
Implicit Types (outcomes : list (Settled A)) (settled : list (Obj (Settled A))).

Lemma fulfilled_values_obj settled :
  fulfilled_values settled = Spec.values_of (obj <$> settled).
Proof.
  unfold fulfilled_values, Spec.values_of.
  induction settled as [|r settled IH]; simpl; [done|]. by rewrite IH.
Qed.

Lemma rejected_reasons_obj settled :
  rejected_reasons settled = Spec.reasons_of (obj <$> settled).
Proof.
  unfold rejected_reasons, Spec.reasons_of.
  induction settled as [|r settled IH]; simpl; [done|]. by rewrite IH.
Qed.

Lemma fulfilled_values_allSettled outcomes :
  fulfilled_values (allSettled outcomes) = Spec.values_of outcomes.
Proof. by rewrite fulfilled_values_obj, allSettled_obj. Qed.

Lemma rejected_reasons_allSettled outcomes :
  rejected_reasons (allSettled outcomes) = Spec.reasons_of outcomes.
Proof. by rewrite rejected_reasons_obj, allSettled_obj. Qed.

Lemma values_of_length outcomes :
  length (Spec.values_of outcomes) = Spec.count_submitted outcomes.
Proof.
  unfold Spec.values_of, Spec.count_submitted.
  induction outcomes as [|[v|e] outcomes IH]; simpl; [done| |done].
  by rewrite IH.
Qed.

Lemma reasons_of_length outcomes :
  length (Spec.reasons_of outcomes) = Spec.count_rejected outcomes.
Proof.
  unfold Spec.reasons_of, Spec.count_rejected.
  induction outcomes as [|[v|e] outcomes IH]; simpl; [done|done|].
  by rewrite IH.
Qed.

Lemma count_partition outcomes :
  Spec.count_submitted outcomes + Spec.count_rejected outcomes = length outcomes.
Proof.
  unfold Spec.count_submitted, Spec.count_rejected.
  induction outcomes as [|[v|e] outcomes IH]; simpl; lia.
Qed.

(** The callback of [failed] never reads past the end of [applicable]. *)
Lemma map_throwing_failed_entry applicable (reasons : list Thrown) :
  forall i,
    i + length reasons <= length applicable ->
    map_throwing (failed_entry applicable) reasons i =
      inr (zip_with (fun a e => Failed.mk (Analyzer.name a) (reason_text e))
             (drop i applicable) reasons).
Proof.
  induction reasons as [|e reasons IH]; intros i Hlen; simpl in *.
  - by destruct (drop i applicable).
  - unfold failed_entry at 1.
    destruct (lookup_lt_is_Some_2 applicable i) as [a Ha]; [lia|].
    rewrite Ha, IH by lia.
    by rewrite (drop_S _ _ _ Ha).
Qed.

End Partition.

Section RunStages.
Context {W : Type} (client : CortexClient W) (args : Args.t) (s : St W).

Lemma run_submit_outcomes_length :
  length (run_submit_outcomes client args s) = length (run_applicable client args s).
Proof. apply fan_out_length. Qed.

Lemma run_wait_outcomes_length :
  length (run_wait_outcomes client args s) = length (run_submitted client args s).
Proof. apply fan_out_length. Qed.

Lemma run_submitted_values :
  run_submitted client args s = Spec.values_of (run_submit_outcomes client args s).
Proof. apply fulfilled_values_allSettled. Qed.

Lemma run_failed_total :
  run_failed client args s = inr (run_failed_list client args s).
Proof.
  unfold run_failed, failed_of, run_failed_list.
  rewrite map_throwing_failed_entry; [done|].
  unfold run_submissions. rewrite rejected_reasons_allSettled, reasons_of_length.
  pose proof (count_partition (run_submit_outcomes client args s)).
  rewrite run_submit_outcomes_length in *. simpl. lia.
Qed.

Lemma run_failed_list_length :
  length (run_failed_list client args s) =
    Spec.count_rejected (run_submit_outcomes client args s).
Proof.
  unfold run_failed_list, run_submissions.
  rewrite length_zip_with, rejected_reasons_allSettled, reasons_of_length.
  pose proof (count_partition (run_submit_outcomes client args s)).
  rewrite run_submit_outcomes_length in *. lia.
Qed.

(** The handler, stage by stage. *)
Lemma handler_run :
  handler client args s =
    match run_listed client s with
    | Rejected e => (mkResponse (Some (error_text e)) true, run_s1 client s)
    | Fulfilled _ =>
        if Nat.eqb (length (run_applicable client args s)) 0
        then (mkResponse (Some (no_analyzers_text args)) false, run_s1 client s)
        else
          match run_failed client args s with
          | inl e => (mkResponse (Some (error_text e)) true, run_s2 client args s)
          | inr failed =>
              (mkResponse
                 (JSON_stringify
                    (report_value args (run_submitted client args s) failed
                       (run_aggregate client args s)))
                 false, run_s3 client args s)
          end
    end.
Proof.
  unfold handler, handler_try, run_aggregate, run_reports, run_wait_outcomes,
    run_s3, run_failed, run_submitted, run_submissions, run_submit_outcomes,
    run_s2, run_applicable, run_listed, run_s1.
  destruct (call_listAnalyzers client s) as [[allAnalyzers|e] s1]; simpl; [|done].
  destruct (Nat.eqb _ 0); [done|].
  destruct (fan_out (submit client args) _ s1) as [submit_outcomes s2]; simpl.
  destruct (failed_of _ _) as [e|failed]; [done|].
  by destruct (fan_out (await_report client args) _ s2) as [wait_outcomes s3].
Qed.

End RunStages.

(** ** The aggregation loop *)

Section Aggregation.
Implicit Types (submitted : list Submitted.t)
  (outcomes : list (Settled Completed.t))
  (reports : list (Obj (Settled Completed.t))).

Lemma push_all {A B} (f : A -> B) (xs : list A) (acc : list B) :
  foldl (fun all t => all ++ [f t]) acc xs = acc ++ (f <$> xs).
Proof.
  revert acc. induction xs as [|x xs IH]; intros acc; simpl.
  - by rewrite app_nil_r.
  - by rewrite IH, <- app_assoc.
Qed.

(** The loop pushes one entry per element of [reports], and the findings
    of the fulfilled ones. *)
Lemma aggregate_loop submitted reports (todo : list (Obj (Settled Completed.t))) :
  forall acc,
    foldl (aggregate_step submitted reports) acc todo =
      mkAggregate
        (allTaxonomies acc ++
           List.flat_map
             (fun r => match obj r with
                       | Fulfilled v =>
                           (fun t => Tagged.mk t (Completed.analyzer v)) <$>
                             taxonomies_of (Completed.report v)
                       | Rejected _ => []
                       end) todo)
        (results acc ++
           ((fun r => match obj r with
                      | Fulfilled v =>
                          Result.mk (Completed.analyzer v)
                            (JobReport.status (Completed.report v))
                            (List.map render_taxonomy
                               (taxonomies_of (Completed.report v)))
                      | Rejected e =>
                          Result.mk
                            (default "unknown"
                               (Submitted.analyzer <$>
                                  at_index submitted (indexOf reports r)))
                            "Error" ["Error: " +:+ reason_text e]
                      end) <$> todo)).
Proof.
  induction todo as [|r todo IH]; intros [all res]; simpl.
  - by rewrite !app_nil_r.
  - rewrite IH. unfold aggregate_step. destruct (obj r) as [v|e]; simpl.
    + rewrite push_all. by rewrite <- !app_assoc.
    + by rewrite <- !app_assoc.
Qed.

Lemma aggregate_results submitted outcomes :
  length outcomes = length submitted ->
  results (aggregate submitted (allSettled outcomes)) =
    zip_with Spec.entry_of submitted outcomes.
Proof.
  intros Hlen. unfold aggregate. rewrite aggregate_loop. simpl.
  apply list_eq; intros i.
  rewrite list_lookup_fmap, lookup_zip_with.
  destruct (allSettled outcomes !! i) as [r|] eqn:Hr; simpl.
  - pose proof (indexOf_allSettled _ _ _ Hr) as Hidx.
    rewrite allSettled_lookup in Hr.
    destruct (outcomes !! i) as [o|] eqn:Ho; [|done].
    injection Hr as <-. simpl in *.
    destruct (lookup_lt_is_Some_2 submitted i) as [job Hjob].
    { rewrite <- Hlen. by eapply lookup_lt_Some. }
    rewrite Hjob. simpl. destruct o as [v|e]; [done|].
    by rewrite Hidx, at_index_of_nat, Hjob.
  - rewrite allSettled_lookup in Hr.
    destruct (outcomes !! i) eqn:Ho; [done|].
    by destruct (submitted !! i).
Qed.

Lemma aggregate_results_length submitted outcomes :
  length (results (aggregate submitted (allSettled outcomes))) = length outcomes.
Proof.
  unfold aggregate. rewrite aggregate_loop. simpl.
  by rewrite length_fmap, allSettled_length.
Qed.

Lemma level_count_app l (xs ys : list Tagged.t) :
  level_count l (xs ++ ys) = level_count l xs + level_count l ys.
Proof. unfold level_count. by rewrite List.filter_app, length_app. Qed.

Lemma level_count_tagged l analyzer (ts : list Taxonomy.t) :
  level_count l ((fun t => Tagged.mk t analyzer) <$> ts) =
    length (List.filter (fun t => String.eqb (Taxonomy.level t) l) ts).
Proof.
  unfold level_count. induction ts as [|t ts IH]; simpl; [done|].
  destruct (String.eqb _ l); simpl; [f_equal|]; exact IH.
Qed.

(** The tally of a category is the sum of what the outcomes contribute. *)
Lemma aggregate_level_count l submitted outcomes :
  level_count l (allTaxonomies (aggregate submitted (allSettled outcomes))) =
    sum_list (Spec.contribution l <$> outcomes).
Proof.
  unfold aggregate. rewrite aggregate_loop. simpl.
  rewrite <- (allSettled_obj outcomes) at 2.
  induction (allSettled outcomes) as [|r reports IH]; simpl; [done|].
  rewrite level_count_app, IH. f_equal.
  unfold Spec.contribution. destruct (obj r) as [v|e]; simpl; [|done].
  apply level_count_tagged.
Qed.

End Aggregation.

(** ** The serialization *)

Section Serialization.

Lemma strings_tree (ts : list string) :
  List.map (fun x => default JNull (JSON_tree x)) (List.map VString ts) =
    List.map JString ts.
Proof. induction ts as [|t ts IH]; simpl; [done|]. by rewrite IH. Qed.

Lemma results_tree (rs : list Result.t) :
  List.map (fun x => default JNull (JSON_tree x)) (List.map result_value rs) =
    List.map result_json rs.
Proof.
  induction rs as [|r rs IH]; simpl; [done|].
  by rewrite IH, strings_tree.
Qed.

Lemma failed_tree (fs : list Failed.t) :
  List.map (fun x => default JNull (JSON_tree x)) (List.map failed_value fs) =
    List.map failed_json fs.
Proof. induction fs as [|f fs IH]; simpl; [done|]. by rewrite IH. Qed.

Lemma report_tree args submitted failed agg :
  JSON_tree (report_value args submitted failed agg) =
    Some (report_json args submitted failed agg).
Proof.
  unfold report_value, report_json. simpl. rewrite results_tree.
  destruct failed as [|f failed]; simpl; [done|].
  by rewrite failed_tree.
Qed.

(** A serialized object opens with a brace. *)
Lemma JSON_render_object indent members :
  exists rest, JSON_render indent (JObject members) = String "{" rest.
Proof. destruct members; simpl; eauto. Qed.

End Serialization.

(** ** The run as a whole *)

Section RunProperties.
Context {W : Type} (client : CortexClient W) (args : Args.t) (s : St W).

Lemma fan_out_lookup {A B} (f : A -> St W -> Settled B * St W) arr :
  forall s0 i o,
    (fan_out f arr s0).1 !! i = Some o ->
    exists x s', arr !! i = Some x /\ o = (f x s').1.
Proof.
  induction arr as [|x arr IH]; intros s0 i o; simpl; [done|].
  destruct (f x s0) as [r s1] eqn:Hf. specialize (IH s1).
  destruct (fan_out f arr s1) as [rs s2]. simpl in *.
  destruct i as [|i]; simpl.
  - intros [= <-]. exists x, s0. by rewrite Hf.
  - apply IH.
Qed.

(** A fulfilled wait carries the name its submitted task carries. *)
Lemma run_wait_outcome_analyzer i job v :
  run_submitted client args s !! i = Some job ->
  run_wait_outcomes client args s !! i = Some (Fulfilled v) ->
  Completed.analyzer v = Submitted.analyzer job.
Proof.
  intros Hjob Hv. apply fan_out_lookup in Hv as (job' & s' & Hjob' & Hv).
  rewrite Hjob in Hjob'. injection Hjob' as <-.
  unfold await_report in Hv. destruct (call_waitAndGetReport _ _ _ _) as [[r|e] s''].
  - by injection Hv as ->.
  - done.
Qed.

Lemma run_applicable_listed allAnalyzers :
  run_listed client s = Fulfilled allAnalyzers ->
  run_applicable client args s = applicable_of args allAnalyzers.
Proof. unfold run_applicable. by intros ->. Qed.

Lemma run_s1_calls : calls (run_s1 client s) = calls s ++ [CallListAnalyzers].
Proof.
  unfold run_s1, call_listAnalyzers. by destruct (listAnalyzers client _).
Qed.

Lemma run_s2_calls :
  calls (run_s2 client args s) =
    calls (run_s1 client s) ++ (submit_call args <$> run_applicable client args s).
Proof. apply fan_out_calls, submit_calls. Qed.

Lemma run_s3_calls :
  calls (run_s3 client args s) =
    calls (run_s2 client args s) ++ (wait_call args <$> run_submitted client args s).
Proof. apply fan_out_calls, await_report_calls. Qed.

Lemma run_results :
  results (run_aggregate client args s) =
    zip_with Spec.entry_of (run_submitted client args s)
      (run_wait_outcomes client args s).
Proof. apply aggregate_results, run_wait_outcomes_length. Qed.

Lemma run_results_lookup i o :
  run_wait_outcomes client args s !! i = Some o ->
  exists job,
    run_submitted client args s !! i = Some job /\
    results (run_aggregate client args s) !! i = Some (Spec.entry_of job o).
Proof.
  intros Ho.
  destruct (lookup_lt_is_Some_2 (run_submitted client args s) i) as [job Hjob].
  { rewrite <- run_wait_outcomes_length. by eapply lookup_lt_Some. }
  exists job. split; [done|].
  by rewrite run_results, lookup_zip_with, Hjob; simpl; rewrite Ho.
Qed.

(** A run with applicable analyzers ends with the serialized report. *)
Lemma handler_done allAnalyzers :
  run_listed client s = Fulfilled allAnalyzers ->
  run_applicable client args s <> [] ->
  answers_report client args s
    (report_json args (run_submitted client args s)
       (run_failed_list client args s) (run_aggregate client args s)).
Proof.
  intros Hlisted Happlicable. exists (run_failed_list client args s).
  split; [apply run_failed_total|]. split; [apply report_tree|].
  rewrite handler_run, Hlisted, run_failed_total.
  destruct (run_applicable client args s); [done|]. simpl.
  unfold JSON_stringify. by rewrite report_tree.
Qed.

Lemma answers_report_unique tree :
  answers_report client args s tree ->
  tree = report_json args (run_submitted client args s)
           (run_failed_list client args s) (run_aggregate client args s).
Proof.
  intros (failed & Hfailed & Htree & _).
  rewrite run_failed_total in Hfailed. injection Hfailed as <-.
  rewrite report_tree in Htree. by injection Htree.
Qed.

End RunProperties.

(** ** How the client fails *)

Section Request.
Context {T : Type}.
Implicit Types (response : Response.t T).

(** A response that is not [ok] rejects with an [Error] whose message
    starts with "Cortex API error: ". *)
Lemma request_not_ok timeout response :
  Response.ok response = false ->
  exists detail,
    request timeout (Fulfilled response) =
      Rejected (ThrownError "Error" ("Cortex API error: " +:+ detail)).
Proof. intros Hok. unfold request. rewrite Hok. simpl. eauto. Qed.

Lemma request_ok timeout response :
  Response.ok response = true ->
  request timeout (Fulfilled response) = Response.json response.
Proof. intros Hok. unfold request. by rewrite Hok. Qed.

(** An aborted [fetch] is reported as a timeout. *)
Lemma request_aborted timeout message :
  request (T := T) timeout (Rejected (ThrownError "AbortError" message)) =
    Rejected (ThrownError "Error"
                ("Cortex API timeout after " +:+ pretty timeout +:+ "ms")).
Proof. reflexivity. Qed.

(** [request] fulfils only with the parsed body of an [ok] response. *)
Lemma request_fulfilled timeout (fetched : Settled (Response.t T)) value :
  request timeout fetched = Fulfilled value ->
  exists response,
    fetched = Fulfilled response /\
    Response.ok response = true /\
    Response.json response = Fulfilled value.
Proof.
  unfold request. destruct fetched as [response|error]; [|done].
  destruct (Response.ok response) eqn:Hok; simpl; [|done].
  intros Hjson. by exists response.
Qed.

End Request.

(** ** The answer *)

Section Answer.
Context {W : Type} (client : CortexClient W) (args : Args.t) (s : St W).

(** The answer is flagged exactly when the listing was rejected, and it
    always has a text. *)
Lemma handler_flagged :
  isError (handler client args s).1 = is_rejected (run_listed client s).
Proof.
  rewrite handler_run, run_failed_total.
  destruct (run_listed client s); [|done].
  by destruct (Nat.eqb _ 0).
Qed.

Lemma handler_text_defined :
  exists t, text (handler client args s).1 = Some t.
Proof.
  rewrite handler_run, run_failed_total.
  destruct (run_listed client s); [|by eexists].
  destruct (Nat.eqb _ 0); [by eexists|].
  unfold JSON_stringify. rewrite report_tree. by eexists.
Qed.

End Answer.

(** Over the transport: an [ok] listing with a parsable body is all the
    handler needs not to flag its answer. *)
Lemma handler_over_transport_unflagged {W} (t : Transport W) (args : Args.t)
    (s : St W) response allAnalyzers :
  (fetch_analyzer t (world s)).1 = Fulfilled response ->
  Response.ok response = true ->
  Response.json response = Fulfilled allAnalyzers ->
  isError (handler (client_over t) args s).1 = false.
Proof.
  intros Hfetch Hok Hjson. rewrite handler_flagged.
  unfold run_listed, call_listAnalyzers. simpl.
  destruct (fetch_analyzer t (world s)) as [fetched w]. simpl in *.
  subst fetched. by rewrite request_ok, Hjson.
Qed.

(** ** The handler on the fixtures *)

Section Scenarios.
Import Fixtures.

(** Scenario A. *)
Example scenario_all_succeed :
  answers_report client_all_succeed args_ip start
    (JObject
       [("observable",
         JObject [("dataType", JString "ip"); ("data", JString "8.8.8.8")]);
        ("analyzersRun", JNumber 2); ("analyzersFailed", JNumber 0);
        ("summary",
         JObject [("malicious", JNumber 1); ("suspicious", JNumber 1);
                  ("info", JNumber 0); ("safe", JNumber 0)]);
        ("results",
         JArray
           [JObject [("analyzer", JString "VirusTotal_GetReport");
                     ("status", JString "Success");
                     ("taxonomies",
                      JArray [JString "[malicious] VT:GetReport = 5/87"])];
            JObject [("analyzer", JString "AbuseIPDB");
                     ("status", JString "Success");
                     ("taxonomies",
                      JArray [JString "[suspicious] AbuseIPDB:Score = 75%"])]])]).
Proof.
  assert (run_applicable client_all_succeed args_ip start <> []) as Hsome
    by discriminate.
  exact (handler_done client_all_succeed args_ip start mockAnalyzers
           eq_refl Hsome).
Qed.

(** Scenario B. *)
Example scenario_none_applicable :
  handler client_all_succeed args_registry start =
    (mkResponse (Some (no_analyzers_text args_registry)) false,
     mkSt (0, 0) [CallListAnalyzers]).
Proof. reflexivity. Qed.

(** Scenario D. *)
Example scenario_wait_times_out :
  answers_report client_wait_times_out args_ip start
    (JObject
       [("observable",
         JObject [("dataType", JString "ip"); ("data", JString "8.8.8.8")]);
        ("analyzersRun", JNumber 2); ("analyzersFailed", JNumber 0);
        ("summary",
         JObject [("malicious", JNumber 0); ("suspicious", JNumber 1);
                  ("info", JNumber 0); ("safe", JNumber 0)]);
        ("results",
         JArray
           [JObject [("analyzer", JString "VirusTotal_GetReport");
                     ("status", JString "Error");
                     ("taxonomies",
                      JArray [JString "Error: Cortex API timeout after 30000ms"])];
            JObject [("analyzer", JString "AbuseIPDB");
                     ("status", JString "Success");
                     ("taxonomies",
                      JArray [JString "[suspicious] AbuseIPDB:Score = 75%"])]])]).
Proof.
  assert (run_applicable client_wait_times_out args_ip start <> []) as Hsome
    by discriminate.
  exact (handler_done client_wait_times_out args_ip start mockAnalyzers
           eq_refl Hsome).
Qed.

(** The directory cannot be listed: "should throw on 401 unauthorized",
    and a [fetch] aborted at the deadline. *)
Example scenario_unauthorized :
  handler (client_over (transport_answering 401 "Unauthorized")) args_ip start =
    (mkResponse
       (Some ("Error analyzing observable: Cortex API error: " +:+
              "Invalid API key or unauthorized access - Unauthorized")) true,
     mkSt (0, 0) [CallListAnalyzers]).
Proof. reflexivity. Qed.

Example scenario_aborted :
  handler (client_over transport_aborting) args_ip start =
    (mkResponse
       (Some "Error analyzing observable: Cortex API timeout after 30000ms")
       true,
     mkSt (0, 0) [CallListAnalyzers]).
Proof. reflexivity. Qed.

End Scenarios.

(** ** The submission stage *)

Section SubmissionStage.
Context {W : Type} (client : CortexClient W) (args : Args.t) (s : St W).

(** The two lists of the submission stage have, together, one entry per
    applicable analyzer; one call is issued per applicable analyzer,
    whatever the outcomes of the others. *)
Lemma submission_lists_cover_applicable :
  length (run_submitted client args s) =
    Spec.count_submitted (run_submit_outcomes client args s) /\
  length (run_failed_list client args s) =
    Spec.count_rejected (run_submit_outcomes client args s) /\
  length (run_submitted client args s) + length (run_failed_list client args s) =
    length (run_applicable client args s) /\
  calls (run_s2 client args s) =
    calls (run_s1 client s) ++ (submit_call args <$> run_applicable client args s).
Proof.
  rewrite run_submitted_values, values_of_length, run_failed_list_length.
  repeat split; [|apply run_s2_calls].
  rewrite count_partition. apply run_submit_outcomes_length.
Qed.

(** The error messages of [failed] are those of the rejected submissions,
    in order; its names are the names of the first analyzers of
    [applicable], as many as there are rejections. *)
Lemma failed_list_errors (applicable : list Analyzer.t) (reasons : list Thrown) :
  length reasons <= length applicable ->
  Failed.error <$>
    zip_with (fun a e => Failed.mk (Analyzer.name a) (reason_text e))
      applicable reasons = reason_text <$> reasons.
Proof.
  revert applicable. induction reasons as [|e reasons IH];
    intros [|a applicable] Hlen; simpl in *; try done; [lia|].
  f_equal. apply IH. lia.
Qed.

Lemma failed_list_names (applicable : list Analyzer.t) (reasons : list Thrown) :
  Failed.analyzer <$>
    zip_with (fun a e => Failed.mk (Analyzer.name a) (reason_text e))
      applicable reasons =
    take (length reasons) (Analyzer.name <$> applicable).
Proof.
  revert applicable. induction reasons as [|e reasons IH];
    intros [|a applicable]; simpl in *; try done.
  f_equal. apply IH.
Qed.

Lemma failed_errors_in_order :
  Failed.error <$> run_failed_list client args s =
    reason_text <$> Spec.reasons_of (run_submit_outcomes client args s).
Proof.
  unfold run_failed_list, run_submissions.
  rewrite rejected_reasons_allSettled. apply failed_list_errors.
  rewrite reasons_of_length.
  pose proof (count_partition (run_submit_outcomes client args s)).
  rewrite run_submit_outcomes_length in *. lia.
Qed.

Lemma failed_names_by_position :
  Failed.analyzer <$> run_failed_list client args s =
    take (Spec.count_rejected (run_submit_outcomes client args s))
      (Analyzer.name <$> run_applicable client args s).
Proof.
  unfold run_failed_list, run_submissions.
  by rewrite rejected_reasons_allSettled, failed_list_names, reasons_of_length.
Qed.

End SubmissionStage.

(** C1.  On the fixture of the partial-failure test (two analyzers support
    "ip"; the submission to the first is accepted, the submission to the
    second, AbuseIPDB, is rejected with "Analyzer rate limited") the
    Rejected list the handler builds names VirusTotal_GetReport, the
    analyzer at the position the rejection has among the rejections, and not
    AbuseIPDB, whose call failed: the entry does not carry the name of the
    provider whose submission failed. *)
Theorem partial_failure_names_other_analyzer :
  let client := Fixtures.client_partial_failure in
  let applicable := run_applicable client Fixtures.args_ip Fixtures.start in
  let outcomes := run_submit_outcomes client Fixtures.args_ip Fixtures.start in
  (fun ao => (Analyzer.name ao.1, ao.2)) <$> Spec.by_provider applicable outcomes =
    [("VirusTotal_GetReport",
      Fulfilled (Submitted.mk "VirusTotal_GetReport" "job_1"));
     ("AbuseIPDB", Rejected (ThrownError "Error" "Analyzer rate limited"))] /\
  run_failed client Fixtures.args_ip Fixtures.start =
    inr [Failed.mk "VirusTotal_GetReport" "Analyzer rate limited"] /\
  Spec.rejected_by_provider applicable outcomes =
    [Failed.mk "AbuseIPDB" "Analyzer rate limited"] /\
  member "submissionErrors"
    (report_json Fixtures.args_ip
       (run_submitted client Fixtures.args_ip Fixtures.start)
       (run_failed_list client Fixtures.args_ip Fixtures.start)
       (run_aggregate client Fixtures.args_ip Fixtures.start)) =
    Some (JArray [JObject [("analyzer", JString "VirusTotal_GetReport");
                           ("error", JString "Analyzer rate limited")]]) /\
  answers_report client Fixtures.args_ip Fixtures.start
    (report_json Fixtures.args_ip
       (run_submitted client Fixtures.args_ip Fixtures.start)
       (run_failed_list client Fixtures.args_ip Fixtures.start)
       (run_aggregate client Fixtures.args_ip Fixtures.start)).
Proof.
  repeat split; try (vm_compute; reflexivity).
  by apply (handler_done _ _ _ Fixtures.mockAnalyzers).
Qed.

(** C2.  On the same fixture the two lists of the submission stage do have
    two entries for the two applicable analyzers, but VirusTotal_GetReport
    appears in both lists and AbuseIPDB, whose submission failed, in
    neither: the applicable providers are not each in exactly one list. *)
Theorem partial_failure_lists_not_a_partition :
  let client := Fixtures.client_partial_failure in
  let applicable := run_applicable client Fixtures.args_ip Fixtures.start in
  let submitted := run_submitted client Fixtures.args_ip Fixtures.start in
  let failed := run_failed_list client Fixtures.args_ip Fixtures.start in
  run_failed client Fixtures.args_ip Fixtures.start = inr failed /\
  length submitted + length failed = length applicable /\
  (fun a => (Analyzer.name a, Spec.in_submitted a submitted,
             Spec.in_rejected a failed)) <$> applicable =
    [("VirusTotal_GetReport", true, true); ("AbuseIPDB", false, false)].
Proof. repeat split; vm_compute; reflexivity. Qed.

(** ** The completion stage and the aggregation *)

(** C3.  In a run that reaches the completion stage one wait is issued per
    Submitted task, in the order of the Submitted list, and settles to one
    outcome; whatever the order in which the waits settle, the slot array
    is the [reports] array the loop reads; the [results] of the answer has
    one entry per Submitted task, the entry of a task built from its own
    outcome, and the entries name the analyzers in the order of the
    Submitted list. *)
Theorem results_follow_submitted {W} (client : CortexClient W)
    (args : Args.t) (s : St W) (allAnalyzers : list Analyzer.t) :
  run_listed client s = Fulfilled allAnalyzers ->
  run_applicable client args s <> [] ->
  let submitted := run_submitted client args s in
  let outcomes := run_wait_outcomes client args s in
  let entries := results (run_aggregate client args s) in
  calls (run_s3 client args s) =
    calls (run_s2 client args s) ++ (wait_call args <$> submitted) /\
  length outcomes = length submitted /\
  (forall order,
     (forall i, i < length submitted -> In i order) ->
     allSettled_slots outcomes order = Some <$> run_reports client args s) /\
  entries = zip_with Spec.entry_of submitted outcomes /\
  length entries = length submitted /\
  Result.analyzer <$> entries = Submitted.analyzer <$> submitted /\
  exists tree,
    answers_report client args s tree /\
    member "results" tree = Some (JArray (result_json <$> entries)).
Proof.
  intros Hlisted Happlicable submitted outcomes entries.
  assert (length outcomes = length submitted) as Hlen
    by apply run_wait_outcomes_length.
  assert (entries = zip_with Spec.entry_of submitted outcomes) as Hentries
    by apply run_results.
  split; [apply run_s3_calls|]. split; [done|]. split.
  { intros order Horder. apply allSettled_slots_any_order.
    intros i Hi. apply list_elem_of_In, Horder. by rewrite <- Hlen. }
  split; [done|]. split.
  { rewrite Hentries, length_zip_with. lia. }
  split.
  { apply list_eq; intros i. rewrite !list_lookup_fmap.
    destruct (outcomes !! i) as [o|] eqn:Ho.
    - destruct (run_results_lookup client args s i o Ho) as (job & Hjob & Hentry).
      fold submitted in Hjob. fold entries in Hentry. rewrite Hjob, Hentry. simpl.
      destruct o as [v|e]; simpl; [|done].
      f_equal. by eapply run_wait_outcome_analyzer.
    - apply lookup_ge_None in Ho.
      rewrite (proj2 (lookup_ge_None entries i)),
              (proj2 (lookup_ge_None submitted i)); [done|lia|].
      rewrite Hentries, length_zip_with. lia. }
  eexists. split; [by eapply handler_done|]. done.
Qed.

Lemma results_follow_submitted_witness :
  run_listed Fixtures.client_wait_times_out Fixtures.start =
    Fulfilled Fixtures.mockAnalyzers /\
  run_applicable Fixtures.client_wait_times_out Fixtures.args_ip Fixtures.start <> [] /\
  Result.analyzer <$>
    results (run_aggregate Fixtures.client_wait_times_out Fixtures.args_ip
               Fixtures.start) =
  Submitted.analyzer <$>
    run_submitted Fixtures.client_wait_times_out Fixtures.args_ip Fixtures.start.
Proof.
  split; [reflexivity|]. split; [discriminate|].
  apply (results_follow_submitted Fixtures.client_wait_times_out
           Fixtures.args_ip Fixtures.start Fixtures.mockAnalyzers);
    [reflexivity | discriminate].
Defined.

(** C4.  In the report a run answers with, [analyzersRun] is the number of
    fulfilled (Submitted) and [analyzersFailed] the number of rejected
    submission outcomes. *)
Theorem report_counts_outcomes {W} (client : CortexClient W)
    (args : Args.t) (s : St W) (allAnalyzers : list Analyzer.t) :
  run_listed client s = Fulfilled allAnalyzers ->
  run_applicable client args s <> [] ->
  exists tree,
    answers_report client args s tree /\
    member "analyzersRun" tree =
      Some (JNumber (Z.of_nat
        (Spec.count_submitted (run_submit_outcomes client args s)))) /\
    member "analyzersFailed" tree =
      Some (JNumber (Z.of_nat
        (Spec.count_rejected (run_submit_outcomes client args s)))).
Proof.
  intros Hlisted Happlicable.
  eexists. split; [by eapply handler_done|].
  destruct (submission_lists_cover_applicable client args s) as (Hrun & Hfailed & _).
  simpl. by rewrite Hrun, Hfailed.
Qed.

Lemma report_counts_outcomes_witness :
  run_listed Fixtures.client_partial_failure Fixtures.start =
    Fulfilled Fixtures.mockAnalyzers /\
  run_applicable Fixtures.client_partial_failure Fixtures.args_ip Fixtures.start <> [] /\
  exists tree,
    answers_report Fixtures.client_partial_failure Fixtures.args_ip
      Fixtures.start tree /\
    member "analyzersRun" tree = Some (JNumber 1) /\
    member "analyzersFailed" tree = Some (JNumber 1).
Proof.
  split; [reflexivity|]. split; [discriminate|].
  apply (report_counts_outcomes Fixtures.client_partial_failure
           Fixtures.args_ip Fixtures.start Fixtures.mockAnalyzers);
    [reflexivity | discriminate].
Defined.

(** C5.  The [summary] of the report has exactly the four categories, and
    the count of each is the sum, over the completion outcomes, of the
    number of findings of that severity the outcome carries: the findings
    of its payload when the wait completed, none when it failed.  Only
    Submitted tasks have a completion outcome, so a rejected submission
    adds nothing either. *)
Theorem summary_tallies_completed_findings {W} (client : CortexClient W)
    (args : Args.t) (s : St W) (allAnalyzers : list Analyzer.t) :
  run_listed client s = Fulfilled allAnalyzers ->
  run_applicable client args s <> [] ->
  let outcomes := run_wait_outcomes client args s in
  exists tree summary,
    answers_report client args s tree /\
    member "summary" tree = Some summary /\
    keys summary = ["malicious"; "suspicious"; "info"; "safe"] /\
    (forall l, In l Spec.severities ->
       member l summary =
         Some (JNumber (Z.of_nat (sum_list (Spec.contribution l <$> outcomes))))) /\
    (forall l e, Spec.contribution l (Rejected e) = 0) /\
    length outcomes =
      Spec.count_submitted (run_submit_outcomes client args s).
Proof.
  intros Hlisted Happlicable outcomes.
  eexists. eexists. split; [by eapply handler_done|].
  split; [reflexivity|]. split; [reflexivity|]. split.
  { intros l Hl. unfold run_aggregate, run_reports.
    rewrite <- (aggregate_level_count l (run_submitted client args s)).
    simpl in Hl. destruct Hl as [<-|[<-|[<-|[<-|[]]]]]; reflexivity. }
  split; [done|].
  unfold outcomes.
  by rewrite run_wait_outcomes_length, run_submitted_values, values_of_length.
Qed.

Lemma summary_tallies_completed_findings_witness :
  run_listed Fixtures.client_all_succeed Fixtures.start =
    Fulfilled Fixtures.mockAnalyzers /\
  run_applicable Fixtures.client_all_succeed Fixtures.args_ip Fixtures.start <> [] /\
  exists tree summary,
    answers_report Fixtures.client_all_succeed Fixtures.args_ip
      Fixtures.start tree /\
    member "summary" tree = Some summary /\
    member "malicious" summary = Some (JNumber 1) /\
    member "suspicious" summary = Some (JNumber 1) /\
    member "info" summary = Some (JNumber 0) /\
    member "safe" summary = Some (JNumber 0).
Proof.
  split; [reflexivity|]. split; [discriminate|].
  destruct (summary_tallies_completed_findings Fixtures.client_all_succeed
              Fixtures.args_ip Fixtures.start Fixtures.mockAnalyzers)
    as (tree & summary & Hanswer & Hsummary & _ & Hcount & _);
    [reflexivity | discriminate |].
  exists tree, summary. split; [exact Hanswer|]. split; [exact Hsummary|].
  repeat split; (rewrite Hcount; [reflexivity | simpl; tauto]).
Defined.

(** C6.  The serialized report has a [submissionErrors] member exactly when
    some submission was rejected; it then holds one entry per rejection,
    and without rejections the member is absent, not an empty array. *)
Theorem submissionErrors_iff_rejections {W} (client : CortexClient W)
    (args : Args.t) (s : St W) (allAnalyzers : list Analyzer.t) :
  run_listed client s = Fulfilled allAnalyzers ->
  run_applicable client args s <> [] ->
  let rejected := Spec.count_rejected (run_submit_outcomes client args s) in
  exists tree,
    answers_report client args s tree /\
    (In "submissionErrors" (keys tree) <-> 0 < rejected) /\
    (rejected = 0 -> member "submissionErrors" tree = None) /\
    (0 < rejected ->
       exists items,
         member "submissionErrors" tree = Some (JArray items) /\
         length items = rejected).
Proof.
  intros Hlisted Happlicable rejected.
  eexists. split; [by eapply handler_done|].
  unfold rejected. rewrite <- run_failed_list_length.
  destruct (run_failed_list client args s) as [|f failed]; simpl.
  - split; [|split; [done|lia]].
    split; [|lia]. intros [|[|[|[|[|[]]]]]]; discriminate.
  - split; [|split; [lia|]].
    + split; [lia|]. intros _. do 5 right. by left.
    + intros _. eexists. split; [reflexivity|].
      simpl. by rewrite length_map.
Qed.

Lemma submissionErrors_iff_rejections_witness :
  run_listed Fixtures.client_all_succeed Fixtures.start =
    Fulfilled Fixtures.mockAnalyzers /\
  run_applicable Fixtures.client_all_succeed Fixtures.args_ip Fixtures.start <> [] /\
  exists tree,
    answers_report Fixtures.client_all_succeed Fixtures.args_ip
      Fixtures.start tree /\
    member "submissionErrors" tree = None.
Proof.
  split; [reflexivity|]. split; [discriminate|].
  destruct (submissionErrors_iff_rejections Fixtures.client_all_succeed
              Fixtures.args_ip Fixtures.start Fixtures.mockAnalyzers)
    as (tree & Hanswer & _ & Habsent & _);
    [reflexivity | discriminate |].
  exists tree. split; [exact Hanswer|]. apply Habsent. reflexivity.
Defined.

(** ** The orchestration *)

Lemma no_analyzers_text_is_no_report (args : Args.t) members indent :
  JSON_render indent (JObject members) <> no_analyzers_text args.
Proof.
  destruct (JSON_render_object indent members) as [rest ->]. discriminate.
Qed.

(** C7.  When no listed analyzer supports the data type the handler
    answers, unflagged, with the text "No analyzers found that support data
    type ..." after the one call that listed the analyzers: no submission
    and no wait is issued and the answer is no report.  When some analyzer
    supports it the handler goes on: it submits to every applicable
    analyzer in order, waits for every Submitted task, and answers with the
    report. *)
Theorem short_circuit_without_applicable {W} (client : CortexClient W)
    (args : Args.t) (s : St W) (allAnalyzers : list Analyzer.t) :
  run_listed client s = Fulfilled allAnalyzers ->
  (applicable_of args allAnalyzers = [] ->
     handler client args s =
       (mkResponse (Some (no_analyzers_text args)) false, run_s1 client s) /\
     (exists rest, no_analyzers_text args = "No analyzers found" +:+ rest) /\
     calls (handler client args s).2 = calls s ++ [CallListAnalyzers] /\
     (forall tree, ~ answers_report client args s tree)) /\
  (applicable_of args allAnalyzers <> [] ->
     calls (handler client args s).2 =
       calls s ++ [CallListAnalyzers]
         ++ (submit_call args <$> applicable_of args allAnalyzers)
         ++ (wait_call args <$> run_submitted client args s) /\
     exists tree, answers_report client args s tree).
Proof.
  intros Hlisted.
  pose proof (run_applicable_listed client args s _ Hlisted) as Happlicable.
  split; intros Hnone.
  - assert (handler client args s =
              (mkResponse (Some (no_analyzers_text args)) false, run_s1 client s))
      as Hhandler.
    { by rewrite handler_run, Hlisted, Happlicable, Hnone. }
    split; [done|]. split; [by eexists|]. split.
    + rewrite Hhandler. apply run_s1_calls.
    + intros tree (failed & _ & Htree & Hanswer).
      rewrite Hhandler in Hanswer. injection Hanswer as Htext _.
      unfold report_value in Htree. simpl in Htree. injection Htree as <-.
      symmetry in Htext. by apply no_analyzers_text_is_no_report in Htext.
  - rewrite <- Happlicable in *.
    destruct (handler_done client args s _ Hlisted Hnone)
      as (failed & Hfailed & Htree & Hhandler).
    split.
    + rewrite Hhandler. simpl.
      rewrite run_s3_calls, run_s2_calls, run_s1_calls.
      by rewrite <- !app_assoc.
    + eexists. by eapply handler_done.
Qed.

Lemma short_circuit_without_applicable_witness :
  run_listed Fixtures.client_all_succeed Fixtures.start =
    Fulfilled Fixtures.mockAnalyzers /\
  applicable_of Fixtures.args_registry Fixtures.mockAnalyzers = [] /\
  calls (handler Fixtures.client_all_succeed Fixtures.args_registry
           Fixtures.start).2 = [CallListAnalyzers].
Proof.
  split; [reflexivity|]. split; [reflexivity|].
  destruct (short_circuit_without_applicable Fixtures.client_all_succeed
              Fixtures.args_registry Fixtures.start Fixtures.mockAnalyzers)
    as [Hnone _]; [reflexivity|].
  destruct Hnone as (_ & _ & Hcalls & _); [reflexivity|]. exact Hcalls.
Defined.

(** C8.  The handler flags its answer as an error exactly when listing the
    analyzers failed: the answer is then the text "Error analyzing
    observable: ..." with the message of that failure, and no submission
    or wait has been issued.  Once the analyzers are listed the answer is
    never flagged, however the submissions and the waits end: it is the
    short-circuit text or the report, in which every rejected submission
    is counted and every failed wait has its entry. *)
Theorem only_listing_failure_is_flagged {W} (client : CortexClient W)
    (args : Args.t) (s : St W) :
  match run_listed client s with
  | Rejected e =>
      handler client args s =
        (mkResponse (Some ("Error analyzing observable: " +:+ reason_text e))
           true, run_s1 client s) /\
      calls (handler client args s).2 = calls s ++ [CallListAnalyzers]
  | Fulfilled allAnalyzers =>
      isError (handler client args s).1 = false /\
      match applicable_of args allAnalyzers with
      | [] =>
          (handler client args s).1 =
            mkResponse (Some (no_analyzers_text args)) false
      | _ :: _ =>
          exists tree,
            answers_report client args s tree /\
            member "analyzersFailed" tree =
              Some (JNumber (Z.of_nat
                (Spec.count_rejected (run_submit_outcomes client args s)))) /\
            member "results" tree =
              Some (JArray
                (result_json <$>
                   zip_with Spec.entry_of (run_submitted client args s)
                     (run_wait_outcomes client args s)))
      end
  end.
Proof.
  destruct (run_listed client s) as [allAnalyzers|e] eqn:Hlisted.
  - pose proof (run_applicable_listed client args s _ Hlisted) as Happlicable.
    destruct (applicable_of args allAnalyzers) as [|a applicable] eqn:Hfilter.
    + by rewrite handler_run, Hlisted, Happlicable.
    + assert (run_applicable client args s <> []) as Hsome by by rewrite Happlicable.
      pose proof (handler_done client args s _ Hlisted Hsome) as Hdone.
      split.
      * destruct Hdone as (failed & _ & _ & ->). done.
      * eexists. split; [exact Hdone|]. simpl.
        by rewrite run_failed_list_length, run_results.
  - rewrite handler_run, Hlisted. simpl. split; [done|]. apply run_s1_calls.
Qed.

(** ** Failed and empty completions *)

(** C9.  A wait that fails (deadline or transport) puts, at the position of
    its task, an entry into the same [results] array: the task's analyzer
    name, the status "Error" and the one line "Error: " followed by the
    failure message.  The report has no other member for such failures
    (its members are the six of the report object), and the entry at any
    position is the same for any other outcomes of the waits that agree
    with these at that position. *)
Theorem failed_completion_is_inline {W} (client : CortexClient W)
    (args : Args.t) (s : St W) (i : nat) (e : Thrown) :
  run_wait_outcomes client args s !! i = Some (Rejected e) ->
  exists job tree,
    run_submitted client args s !! i = Some job /\
    results (run_aggregate client args s) !! i =
      Some (Result.mk (Submitted.analyzer job) "Error"
              ["Error: " +:+ reason_text e]) /\
    answers_report client args s tree /\
    member "results" tree =
      Some (JArray (result_json <$> results (run_aggregate client args s))) /\
    (forall key, In key (keys tree) ->
       In key ["observable"; "analyzersRun"; "analyzersFailed"; "summary";
               "results"; "submissionErrors"]) /\
    (forall outcomes j,
       length outcomes = length (run_wait_outcomes client args s) ->
       outcomes !! j = run_wait_outcomes client args s !! j ->
       results (aggregate (run_submitted client args s) (allSettled outcomes)) !! j =
         results (run_aggregate client args s) !! j).
Proof.
  intros Hfailed.
  destruct (run_results_lookup client args s i _ Hfailed) as (job & Hjob & Hentry).
  assert (exists allAnalyzers,
            run_listed client s = Fulfilled allAnalyzers /\
            run_applicable client args s <> []) as (allAnalyzers & Hlisted & Hsome).
  { pose proof (lookup_lt_Some _ _ _ Hjob) as Hlt.
    pose proof (submission_lists_cover_applicable client args s) as (_ & _ & Hsum & _).
    unfold run_applicable in *.
    destruct (run_listed client s) as [allAnalyzers|]; [|simpl in *; lia].
    exists allAnalyzers. split; [done|].
    intros Hnil. rewrite Hnil in Hsum. simpl in Hsum. lia. }
  exists job. eexists. split; [done|]. split; [done|].
  split; [by eapply handler_done|]. split; [done|]. split.
  { intros key. destruct (run_failed_list client args s); simpl; tauto. }
  intros outcomes j Hlen Hj.
  rewrite run_results, aggregate_results
    by (by rewrite Hlen, run_wait_outcomes_length).
  by rewrite !lookup_zip_with, Hj.
Qed.

Lemma failed_completion_is_inline_witness :
  run_wait_outcomes Fixtures.client_wait_times_out Fixtures.args_ip
    Fixtures.start !! 0 =
    Some (Rejected (ThrownError "Error" "Cortex API timeout after 30000ms")) /\
  results (run_aggregate Fixtures.client_wait_times_out Fixtures.args_ip
             Fixtures.start) !! 0 =
    Some (Result.mk "VirusTotal_GetReport" "Error"
            ["Error: Cortex API timeout after 30000ms"]).
Proof.
  split; [reflexivity|].
  destruct (failed_completion_is_inline Fixtures.client_wait_times_out
              Fixtures.args_ip Fixtures.start 0
              (ThrownError "Error" "Cortex API timeout after 30000ms"))
    as (job & tree & Hjob & Hentry & _); [reflexivity|].
  rewrite Hentry. injection Hjob as <-. reflexivity.
Defined.

(** C10.  A wait that completes with a payload lacking [report], or
    [report.summary], or [report.summary.taxonomies], still has its entry
    in [results], with its analyzer name, the status of the payload and no
    rendered finding; it adds nothing to any count: each count is the sum
    of what the other outcomes contribute. *)
Theorem completed_without_taxonomies {W} (client : CortexClient W)
    (args : Args.t) (s : St W) (i : nat) (v : Completed.t) :
  run_wait_outcomes client args s !! i = Some (Fulfilled v) ->
  Spec.lacks_taxonomies (Completed.report v) = true ->
  results (run_aggregate client args s) !! i =
    Some (Result.mk (Completed.analyzer v)
            (JobReport.status (Completed.report v)) []) /\
  forall l,
    Spec.contribution l (Fulfilled v) = 0 /\
    level_count l (allTaxonomies (run_aggregate client args s)) =
      sum_list (Spec.contribution l <$>
                  delete i (run_wait_outcomes client args s)).
Proof.
  intros Hcompleted Hlacks.
  assert (taxonomies_of (Completed.report v) = []) as Hnone.
  { unfold Spec.lacks_taxonomies in Hlacks. unfold taxonomies_of.
    destruct (JobReport.report _) as [body|]; [|done].
    destruct (JobReport.summary body) as [summary|]; [|done].
    by destruct (ReportSummary.taxonomies summary). }
  destruct (run_results_lookup client args s i _ Hcompleted) as (job & _ & Hentry).
  split.
  { rewrite Hentry. simpl. by rewrite Hnone. }
  intros l.
  assert (Spec.contribution l (Fulfilled v) = 0) as Hzero.
  { unfold Spec.contribution. simpl. by rewrite Hnone. }
  split; [done|].
  unfold run_aggregate, run_reports. rewrite aggregate_level_count.
  rewrite <- (take_drop_middle _ _ _ Hcompleted) at 1.
  rewrite delete_take_drop, !fmap_app, !sum_list_with_app.
  rewrite fmap_cons. simpl. rewrite Hzero. lia.
Qed.

Lemma completed_without_taxonomies_witness :
  run_wait_outcomes Fixtures.client_bare_reports Fixtures.args_ip
    Fixtures.start !! 0 =
    Some (Fulfilled (Completed.mk "VirusTotal_GetReport"
                       (JobReport.mk "job_1" "Failure" None))) /\
  results (run_aggregate Fixtures.client_bare_reports Fixtures.args_ip
             Fixtures.start) !! 0 =
    Some (Result.mk "VirusTotal_GetReport" "Failure" []).
Proof.
  split; [reflexivity|].
  apply (completed_without_taxonomies Fixtures.client_bare_reports
           Fixtures.args_ip Fixtures.start 0
           (Completed.mk "VirusTotal_GetReport"
              (JobReport.mk "job_1" "Failure" None)));
    reflexivity.
Defined.

(** * Beyond the bulk tool

    ** The configuration *)

Section Config.

Lemma strip_trailing_slashes_snoc url :
  strip_trailing_slashes (url +:+ "/") = strip_trailing_slashes url.
Proof.
  induction url as [|c url IH]; [done|].
  change (String c url +:+ "/") with (String c (url +:+ "/")).
  cbn [strip_trailing_slashes]. by rewrite IH.
Qed.

Lemma strip_trailing_slashes_length url :
  String.length (strip_trailing_slashes url) <= String.length url.
Proof.
  induction url as [|c url IH]; [done|]. cbn [strip_trailing_slashes].
  destruct (strip_trailing_slashes url); [|simpl in *; lia].
  destruct (Ascii.eqb c "/"); simpl; lia.
Qed.

Lemma strip_trailing_slashes_split url :
  exists k, url = strip_trailing_slashes url +:+ slashes k.
Proof.
  induction url as [|c url [k IH]]; [by exists 0|].
  cbn [strip_trailing_slashes].
  destruct (strip_trailing_slashes url) as [|d rest] eqn:Hrest.
  - destruct (Ascii.eqb_spec c "/") as [->|Hc].
    + exists (S k). simpl in *. by rewrite IH at 1.
    + exists k. simpl in *. by rewrite IH at 1.
  - exists k. simpl in *. by rewrite IH at 1.
Qed.

Lemma string_app_length (a b : string) :
  String.length (a +:+ b) = String.length a + String.length b.
Proof. induction a as [|c a IH]; simpl; [done|]. by rewrite IH. Qed.

Lemma strip_trailing_slashes_idempotent url :
  strip_trailing_slashes (strip_trailing_slashes url) =
    strip_trailing_slashes url.
Proof.
  induction url as [|c url IH]; [done|]. cbn [strip_trailing_slashes].
  destruct (strip_trailing_slashes url) as [|d rest] eqn:Hrest.
  - destruct (Ascii.eqb c "/") eqn:Hc; [done|].
    cbn [strip_trailing_slashes]. by rewrite Hc.
  - cbn [strip_trailing_slashes] in *. by rewrite IH.
Qed.

Lemma strip_trailing_slashes_no_slash url prefix :
  strip_trailing_slashes url <> prefix +:+ "/".
Proof.
  intros Hends.
  pose proof (strip_trailing_slashes_idempotent url) as Hidem.
  rewrite Hends, strip_trailing_slashes_snoc in Hidem.
  pose proof (strip_trailing_slashes_length prefix) as Hlen.
  rewrite Hidem, string_app_length in Hlen. simpl in Hlen. lia.
Qed.

End Config.

(** X1.  [getConfig] returns a configuration exactly when [CORTEX_URL] and
    [CORTEX_API_KEY] are both set to non-empty strings; while [CORTEX_URL]
    is unset or empty the error it throws names [CORTEX_URL], whatever the
    key is. *)
Theorem getConfig_requires_url_and_key (env : gmap string string) :
  ((exists config, getConfig env = inr config) <->
   (exists url apiKey,
      env !! "CORTEX_URL" = Some url /\ url <> EmptyString /\
      env !! "CORTEX_API_KEY" = Some apiKey /\ apiKey <> EmptyString)) /\
  (env_missing (env !! "CORTEX_URL") = true ->
   getConfig env =
     inl (ThrownError "Error" "CORTEX_URL environment variable is required")).
Proof.
  unfold getConfig. split; [|by intros ->].
  destruct (env !! "CORTEX_URL") as [[|c url]|] eqn:Hurl; simpl.
  - split; [by intros [? ?]|]. by intros (? & ? & [= <-] & ? & _).
  - destruct (env !! "CORTEX_API_KEY") as [[|d apiKey]|] eqn:Hkey; simpl.
    + split; [by intros [? ?]|]. by intros (? & ? & _ & _ & [= <-] & ?).
    + split; [|by eexists]. intros _. by eexists _, _.
    + split; [by intros [? ?]|]. by intros (? & ? & _ & _ & ? & _).
  - split; [by intros [? ?]|]. by intros (? & ? & ? & _).
Qed.

(** X2.  The [url] of the configuration is the value of [CORTEX_URL]
    without the slashes it ends with: the value is [url] followed by
    slashes only, [url] does not end with a slash, and one more slash at
    the end of [CORTEX_URL] gives the same configuration. *)
Theorem getConfig_strips_trailing_slashes (env : gmap string string)
    (config : CortexConfig.t) :
  getConfig env = inr config ->
  exists value k,
    env !! "CORTEX_URL" = Some value /\
    value = CortexConfig.url config +:+ slashes k /\
    (forall prefix, CortexConfig.url config <> prefix +:+ "/") /\
    getConfig (<["CORTEX_URL" := value +:+ "/"]> env) = inr config.
Proof.
  unfold getConfig.
  destruct (env !! "CORTEX_URL") as [[|c url]|] eqn:Hurl;
    cbn [env_missing]; try done.
  destruct (env_missing (env !! "CORTEX_API_KEY")) eqn:Hkey; [done|].
  cbn [default from_option id].
  destruct (strip_trailing_slashes_split (String c url)) as [k Hsplit].
  pose proof (strip_trailing_slashes_no_slash (String c url)) as Hno.
  pose proof (strip_trailing_slashes_snoc (String c url)) as Hsnoc.
  revert Hsplit Hno Hsnoc.
  generalize (strip_trailing_slashes (String c url)). intros stripped.
  intros Hsplit Hno Hsnoc Hconfig.
  assert (config = CortexConfig.mk stripped
            (default EmptyString (env !! "CORTEX_API_KEY"))
            match env !! "CORTEX_VERIFY_SSL" with
            | Some v => negb (String.eqb v "false")
            | None => true
            end) as -> by congruence.
  exists (String c url), k. split; [done|]. split; [exact Hsplit|].
  split; [exact Hno|].
  rewrite lookup_insert_eq. cbn [env_missing append default from_option id].
  rewrite !lookup_insert_ne by done. rewrite Hkey.
  change (String c (url +:+ "/")) with (String c url +:+ "/").
  by rewrite Hsnoc.
Qed.

Lemma getConfig_strips_trailing_slashes_witness :
  CortexConfig.url
    (CortexConfig.mk "https://cortex.example.com:9001" "test-api-key-123" true)
  = "https://cortex.example.com:9001" /\
  exists value k,
    ({["CORTEX_URL" := "https://cortex.example.com:9001//";
       "CORTEX_API_KEY" := "test-api-key-123"]} : gmap string string)
      !! "CORTEX_URL" = Some value /\
    value = "https://cortex.example.com:9001" +:+ slashes k.
Proof.
  split; [reflexivity|].
  destruct (getConfig_strips_trailing_slashes
              {["CORTEX_URL" := "https://cortex.example.com:9001//";
                "CORTEX_API_KEY" := "test-api-key-123"]}
              (CortexConfig.mk "https://cortex.example.com:9001"
                 "test-api-key-123" true))
    as (value & k & Hvalue & Hsplit & _); [reflexivity|].
  exists value, k. split; [exact Hvalue | exact Hsplit].
Defined.

(** ** The requests of the client *)

Section Strings.

Lemma string_app_cons x (a b : string) :
  String x a +:+ b = String x (a +:+ b).
Proof. reflexivity. Qed.

Lemma string_app_nil_l (b : string) : EmptyString +:+ b = b.
Proof. reflexivity. Qed.

Lemma string_app_assoc (a b c : string) : (a +:+ b) +:+ c = a +:+ (b +:+ c).
Proof.
  induction a as [|x a IH]; [done|]. by rewrite !string_app_cons, IH.
Qed.

Lemma string_app_nil_r (a : string) : a +:+ EmptyString = a.
Proof.
  induction a as [|x a IH]; [done|]. by rewrite !string_app_cons, IH.
Qed.

Lemma count_char_app c (a b : string) :
  count_char c (a +:+ b) = count_char c a + count_char c b.
Proof.
  induction a as [|x a IH]; [done|].
  rewrite string_app_cons. cbn [count_char]. rewrite IH. lia.
Qed.

(** Two strings split at the first occurrence of a character split the
    same way. *)
Lemma split_at_first c (a b r r' : string) :
  count_char c a = 0 -> count_char c b = 0 ->
  a +:+ String c r = b +:+ String c r' -> a = b /\ r = r'.
Proof.
  revert b. induction a as [|x a IH]; intros [|y b];
    rewrite ?string_app_cons, ?string_app_nil_l; cbn [count_char].
  - by intros _ _ [= ->].
  - intros _ Hy [= <- _]. rewrite Ascii.eqb_refl in Hy. lia.
  - intros Hx _ [= -> _]. rewrite Ascii.eqb_refl in Hx. lia.
  - intros Hx Hy [= -> Hrest].
    destruct (IH b) as [-> ->]; [lia | lia | done | done].
Qed.

Lemma string_app_inj_r (a b s : string) : a +:+ s = b +:+ s -> a = b.
Proof.
  intros Heq.
  assert (String.length a = String.length b) as Hlen.
  { apply (f_equal String.length) in Heq.
    rewrite !string_app_length in Heq. lia. }
  revert b Heq Hlen. induction a as [|x a IH]; intros [|y b];
    rewrite ?string_app_cons; simpl; try done.
  intros [= -> Heq] [= Hlen]. f_equal. by apply IH.
Qed.

End Strings.

Section Encoding.

Lemma is_unreserved_HEX_digit n : is_unreserved (HEX_digit n) = true.
Proof. do 16 (destruct n as [|n]; [done|]). done. Qed.

Lemma HEX_digit_inj x y :
  x < 16 -> y < 16 -> HEX_digit x = HEX_digit y -> x = y.
Proof.
  intros Hx Hy.
  do 16 (destruct x as [|x]; [do 16 (destruct y as [|y]; [done|]); lia|]).
  lia.
Qed.

(** Every character of the result is unreserved or a percent sign. *)
Lemma encodeURIComponent_chars c s :
  is_unreserved c = false -> c <> "%"%char ->
  count_char c (encodeURIComponent s) = 0.
Proof.
  intros Hc Hpercent. induction s as [|x s IH]; [done|].
  cbn [encodeURIComponent]. rewrite count_char_app, IH.
  destruct (is_unreserved x) eqn:Hx; cbn [count_char percent_escape].
  - destruct (Ascii.eqb_spec x c) as [->|]; [congruence|done].
  - rewrite (proj2 (Ascii.eqb_neq _ _)) by congruence.
    destruct (Ascii.eqb_spec (HEX_digit (nat_of_ascii x / 16)) c) as [<-|].
    { by rewrite is_unreserved_HEX_digit in Hc. }
    destruct (Ascii.eqb_spec (HEX_digit (nat_of_ascii x mod 16)) c) as [<-|].
    { by rewrite is_unreserved_HEX_digit in Hc. }
    done.
Qed.

Lemma encodeURIComponent_unreserved s :
  forallb is_unreserved (list_ascii_of_string s) = true ->
  encodeURIComponent s = s.
Proof.
  induction s as [|x s IH]; [done|]. cbn [list_ascii_of_string forallb].
  intros [Hx Hs]%andb_prop. cbn [encodeURIComponent]. by rewrite Hx, IH.
Qed.

Lemma nat_of_ascii_lt c : nat_of_ascii c < 256.
Proof. apply nat_ascii_bounded. Qed.

Lemma encodeURIComponent_inj a b :
  encodeURIComponent a = encodeURIComponent b -> a = b.
Proof.
  revert b. induction a as [|x a IH]; intros [|y b]; cbn [encodeURIComponent].
  - done.
  - unfold percent_escape. by destruct (is_unreserved y).
  - unfold percent_escape. by destruct (is_unreserved x).
  - unfold percent_escape.
    destruct (is_unreserved x) eqn:Hx, (is_unreserved y) eqn:Hy;
      rewrite ?string_app_cons, ?string_app_nil_l.
    + intros [= -> Hrest]. f_equal. by apply IH.
    + intros [= -> _]. done.
    + intros [= <- _]. done.
    + intros Heq.
      assert (HEX_digit (nat_of_ascii x / 16) =
                HEX_digit (nat_of_ascii y / 16)) as Hhigh by congruence.
      assert (HEX_digit (nat_of_ascii x mod 16) =
                HEX_digit (nat_of_ascii y mod 16)) as Hlow by congruence.
      assert (encodeURIComponent a = encodeURIComponent b) as Hrest
        by congruence.
      f_equal; [|by apply IH].
      pose proof (nat_of_ascii_lt x). pose proof (nat_of_ascii_lt y).
      apply HEX_digit_inj in Hhigh;
        [|apply Nat.Div0.div_lt_upper_bound; lia..].
      apply HEX_digit_inj in Hlow; [|apply Nat.mod_upper_bound; lia..].
      rewrite <- (ascii_nat_embedding x), <- (ascii_nat_embedding y).
      f_equal.
      rewrite (Nat.div_mod_eq (nat_of_ascii x) 16),
              (Nat.div_mod_eq (nat_of_ascii y) 16). lia.
Qed.

(** Decimal numerals hold digits and a leading minus sign only. *)
Lemma pretty_N_go_chars c (x : N) (s : string) :
  (forall d : N, pretty_N_char d <> c) ->
  count_char c (pretty_N_go x s) = count_char c s.
Proof.
  intros Hc. revert s. induction (N.lt_wf_0 x) as [x _ IH]; intros s.
  destruct (decide (x = 0)%N) as [->|Hx]; [done|].
  rewrite pretty_N_go_step by lia. rewrite IH by (apply N.div_lt; lia).
  cbn [count_char]. by rewrite (proj2 (Ascii.eqb_neq _ _)) by apply Hc.
Qed.

Lemma pretty_Z_chars c (z : Z) :
  (forall d : N, pretty_N_char d <> c) -> c <> "-"%char ->
  count_char c (pretty z) = 0.
Proof.
  intros Hc Hminus.
  assert (forall p : positive, count_char c (pretty p) = 0) as Hpos.
  { intros p. unfold pretty, pretty_positive, pretty, pretty_N.
    case_decide; [done|]. by rewrite pretty_N_go_chars. }
  destruct z as [|p|p]; [| apply Hpos |].
  - change (pretty 0%Z) with "0". cbn [count_char].
    by rewrite (proj2 (Ascii.eqb_neq _ _)) by apply (Hc 0%N).
  - change (pretty (Z.neg p)) with ("-" +:+ pretty p).
    rewrite count_char_app, Hpos. cbn [count_char].
    by rewrite (proj2 (Ascii.eqb_neq _ _)).
Qed.

End Encoding.

Section Paths.

Lemma encodeURIComponent_no_slash id :
  count_char "/" (encodeURIComponent id) = 0.
Proof. by apply encodeURIComponent_chars. Qed.

Lemma encodeURIComponent_no_mark id :
  count_char "?" (encodeURIComponent id) = 0.
Proof. by apply encodeURIComponent_chars. Qed.

Lemma encodeURIComponent_no_hash id :
  count_char "#" (encodeURIComponent id) = 0.
Proof. by apply encodeURIComponent_chars. Qed.

Lemma pretty_Z_no_delimiter (z : Z) :
  count_char "/" (pretty z) = 0 /\ count_char "?" (pretty z) = 0 /\
  count_char "#" (pretty z) = 0.
Proof.
  repeat split; apply pretty_Z_chars; try done;
    intros d; unfold pretty_N_char; by repeat case_match.
Qed.

End Paths.

(** X3.  Whatever the identifier (and the timeout), the path a method
    requests has the number of slashes, question marks and hash signs of
    its template: an identifier cannot add a path segment, a query or a
    fragment. *)
Theorem identifiers_stay_in_their_segment (id : string)
    (data : RunAnalyzerRequest.t) (parameters : Value) (timeoutSeconds : Z) :
  (fun path => (count_char "/" path, count_char "?" path, count_char "#" path))
    <$> [(Endpoint.getAnalyzer id).1;
         (Endpoint.runAnalyzer id data).1;
         (Endpoint.getJob id).1;
         (Endpoint.getJobReport id).1;
         (Endpoint.waitAndGetReport id timeoutSeconds).1;
         (Endpoint.getJobArtifacts id).1;
         (Endpoint.runResponder id parameters).1]
  = [(2, 0, 0); (3, 0, 0); (2, 0, 0); (3, 0, 0); (3, 1, 0); (3, 0, 0);
     (3, 0, 0)].
Proof.
  destruct (pretty_Z_no_delimiter timeoutSeconds) as (Hslash & Hmark & Hhash).
  cbn [fmap list_fmap fst Endpoint.getAnalyzer Endpoint.runAnalyzer
       Endpoint.getJob Endpoint.getJobReport Endpoint.waitAndGetReport
       Endpoint.getJobArtifacts Endpoint.runResponder].
  rewrite !count_char_app, !encodeURIComponent_no_slash,
    !encodeURIComponent_no_mark, !encodeURIComponent_no_hash,
    Hslash, Hmark, Hhash.
  reflexivity.
Qed.

(** X4.  An identifier made of letters, digits and [- _ . ! ~ * ' ( )] is
    sent as it is: the URL of a request is the configured URL, [/api] and
    the path with the identifier verbatim. *)
Theorem unreserved_identifiers_are_verbatim (config : CortexConfig.t)
    (id : string) (data : RunAnalyzerRequest.t) (timeoutSeconds : Z) :
  forallb is_unreserved (list_ascii_of_string id) = true ->
  request_url config (Endpoint.runAnalyzer id data).1 =
    CortexConfig.url config +:+ "/api/analyzer/" +:+ id +:+ "/run" /\
  request_url config (Endpoint.getJobReport id).1 =
    CortexConfig.url config +:+ "/api/job/" +:+ id +:+ "/report" /\
  request_url config (Endpoint.waitAndGetReport id timeoutSeconds).1 =
    CortexConfig.url config +:+ "/api/job/" +:+ id +:+ "/waitreport?atMost="
      +:+ pretty timeoutSeconds +:+ "second".
Proof.
  intros Hid. unfold request_url. simpl.
  rewrite (encodeURIComponent_unreserved id Hid).
  by rewrite !string_app_assoc.
Qed.

Lemma unreserved_identifiers_are_verbatim_witness :
  request_url
    (CortexConfig.mk "https://cortex.example.com:9001" "test-api-key-123" true)
    (Endpoint.waitAndGetReport "AWl2d8x1kDx6FO7wxPBn" 120).1 =
  "https://cortex.example.com:9001/api/job/AWl2d8x1kDx6FO7wxPBn/waitreport?atMost=120second".
Proof.
  apply (unreserved_identifiers_are_verbatim
           (CortexConfig.mk "https://cortex.example.com:9001"
              "test-api-key-123" true)
           "AWl2d8x1kDx6FO7wxPBn"
           (RunAnalyzerRequest.mk "8.8.8.8" "ip" 2 2 None) 120).
  reflexivity.
Defined.

(** X5.  Two requests of the same kind go to the same URL only for the same
    identifier (and, for a wait, the same timeout). *)
Theorem distinct_identifiers_distinct_urls (config : CortexConfig.t)
    (a b : string) (data : RunAnalyzerRequest.t) (t t' : Z) :
  (request_url config (Endpoint.getAnalyzer a).1 =
     request_url config (Endpoint.getAnalyzer b).1 <-> a = b) /\
  (request_url config (Endpoint.runAnalyzer a data).1 =
     request_url config (Endpoint.runAnalyzer b data).1 <-> a = b) /\
  (request_url config (Endpoint.getJob a).1 =
     request_url config (Endpoint.getJob b).1 <-> a = b) /\
  (request_url config (Endpoint.getJobReport a).1 =
     request_url config (Endpoint.getJobReport b).1 <-> a = b) /\
  (request_url config (Endpoint.getJobArtifacts a).1 =
     request_url config (Endpoint.getJobArtifacts b).1 <-> a = b) /\
  (request_url config (Endpoint.waitAndGetReport a t).1 =
     request_url config (Endpoint.waitAndGetReport b t').1 <->
   a = b /\ t = t').
Proof.
  unfold request_url. cbn [fst Endpoint.getAnalyzer Endpoint.runAnalyzer
    Endpoint.getJob Endpoint.getJobReport Endpoint.getJobArtifacts
    Endpoint.waitAndGetReport].
  split; [|split; [|split; [|split; [|split]]]];
    (split; [intros Heq | by (intros -> || intros [-> ->])]);
    apply String.app_inj, String.app_inj in Heq.
  - by apply encodeURIComponent_inj.
  - by apply string_app_inj_r, encodeURIComponent_inj in Heq.
  - by apply encodeURIComponent_inj.
  - by apply string_app_inj_r, encodeURIComponent_inj in Heq.
  - by apply string_app_inj_r, encodeURIComponent_inj in Heq.
  - apply (split_at_first "/") in Heq as [Hid Hrest];
      [|apply encodeURIComponent_no_slash..].
    apply encodeURIComponent_inj in Hid.
    apply (String.app_inj "waitreport?atMost="), string_app_inj_r in Hrest.
    by apply (inj pretty) in Hrest.
Qed.

(** ** The outcome of [request] *)

(** X6.  [request] fulfils exactly when [fetch] resolved to an [ok]
    response whose body parses, and then with the parsed body: a response
    that is not [ok] is never handed on as a value. *)
Theorem request_fulfils_only_ok {T} (timeout : Z)
    (fetched : Settled (Response.t T)) (value : T) :
  request timeout fetched = Fulfilled value <->
  exists response,
    fetched = Fulfilled response /\
    Response.ok response = true /\
    Response.json response = Fulfilled value.
Proof.
  split.
  - unfold request. destruct fetched as [response|error]; [|done].
    destruct (Response.ok response) eqn:Hok; simpl; [|done].
    intros Hjson. by exists response.
  - intros (response & -> & Hok & Hjson). unfold request. by rewrite Hok.
Qed.

(** X7.  A [fetch] that was aborted is reported as [Cortex API timeout
    after <timeout>ms], and the only [AbortError] that can reach a caller of
    [request] is one raised while the body of an [ok] response is read:
    the promise of [response.json()] is returned without passing the
    [catch] clause. *)
Theorem request_reports_abort_as_timeout {T} (timeout : Z) :
  (forall message,
     request (T := T) timeout (Rejected (ThrownError "AbortError" message)) =
       Rejected (ThrownError "Error"
                   ("Cortex API timeout after " +:+ pretty timeout +:+ "ms"))) /\
  (forall (fetched : Settled (Response.t T)) message,
     request timeout fetched = Rejected (ThrownError "AbortError" message) <->
     exists response,
       fetched = Fulfilled response /\
       Response.ok response = true /\
       Response.json response = Rejected (ThrownError "AbortError" message)).
Proof.
  split; [done|]. intros fetched message. split.
  - unfold request, request_catch.
    destruct fetched as [response|[name m|rendered]].
    + destruct (Response.ok response) eqn:Hok; simpl; [|done].
      intros Hjson. by exists response.
    + destruct (String.eqb name "AbortError") eqn:Hname; [done|].
      intros [= -> _]. done.
    + done.
  - intros (response & -> & Hok & Hjson). unfold request. by rewrite Hok.
Qed.

(** ** More on the bulk tool *)

Section BulkExtras.
Context {W : Type} (client : CortexClient W) (args : Args.t) (s : St W).

Lemma reasons_of_fulfilled {A} (outcomes : list (Settled A)) :
  forallb is_fulfilled outcomes = true -> Spec.reasons_of outcomes = [].
Proof.
  induction outcomes as [|[v|e] outcomes IH]; simpl; [done| |done].
  apply IH.
Qed.

Lemma rejected_by_provider_fulfilled {A} applicable (outcomes : list (Settled A)) :
  forallb is_fulfilled outcomes = true ->
  Spec.rejected_by_provider applicable outcomes = [].
Proof.
  unfold Spec.rejected_by_provider, Spec.by_provider.
  revert applicable. induction outcomes as [|[v|e] outcomes IH];
    intros [|a applicable]; simpl; try done.
  apply IH.
Qed.

Lemma rejected_by_provider_cons {A} a applicable (o : Settled A) outcomes :
  Spec.rejected_by_provider (a :: applicable) (o :: outcomes) =
    match o with
    | Rejected e => [Failed.mk (Analyzer.name a) (reason_text e)]
    | Fulfilled _ => []
    end ++ Spec.rejected_by_provider applicable outcomes.
Proof. reflexivity. Qed.

Lemma failed_list_when_rejections_lead {A} applicable
    (outcomes : list (Settled A)) :
  length outcomes = length applicable ->
  Spec2.rejections_lead outcomes = true ->
  zip_with (fun a e => Failed.mk (Analyzer.name a) (reason_text e))
    applicable (Spec.reasons_of outcomes) =
  Spec.rejected_by_provider applicable outcomes.
Proof.
  revert applicable. induction outcomes as [|[v|e] outcomes IH];
    intros [|a applicable]; try done;
    rewrite rejected_by_provider_cons; simpl.
  - intros _ Hall. rewrite (reasons_of_fulfilled _ Hall).
    by rewrite rejected_by_provider_fulfilled.
  - intros [= Hlen] Hlead. f_equal. by apply IH.
Qed.

End BulkExtras.

(** X8.  When no rejection follows an accepted submission (in particular
    when every submission is rejected, or none), every entry of the
    Rejected list carries the name of the analyzer whose submission failed
    and its message, in the order of the analyzers. *)
Theorem failed_names_right_when_rejections_lead {W} (client : CortexClient W)
    (args : Args.t) (s : St W) :
  Spec2.rejections_lead (run_submit_outcomes client args s) = true ->
  run_failed client args s =
    inr (Spec.rejected_by_provider (run_applicable client args s)
           (run_submit_outcomes client args s)).
Proof.
  intros Hlead. rewrite run_failed_total. f_equal.
  unfold run_failed_list, run_submissions.
  rewrite rejected_reasons_allSettled.
  apply failed_list_when_rejections_lead; [|done].
  apply run_submit_outcomes_length.
Qed.

Lemma failed_names_right_when_rejections_lead_witness :
  Spec2.rejections_lead
    (run_submit_outcomes Fixtures2.client_first_rejected Fixtures.args_ip
       Fixtures.start) = true /\
  run_failed Fixtures2.client_first_rejected Fixtures.args_ip Fixtures.start =
    inr [Failed.mk "VirusTotal_GetReport" "Analyzer rate limited"].
Proof.
  split; [reflexivity|].
  apply (failed_names_right_when_rejections_lead
           Fixtures2.client_first_rejected Fixtures.args_ip Fixtures.start).
  reflexivity.
Defined.

Section BulkEdges.
Context {W : Type} (client : CortexClient W) (args : Args.t) (s : St W).

Lemma none_submitted_rejections_lead {A} (outcomes : list (Settled A)) :
  Spec.count_submitted outcomes = 0 -> Spec2.rejections_lead outcomes = true.
Proof.
  unfold Spec.count_submitted.
  induction outcomes as [|[v|e] outcomes IH]; simpl; [done|done|].
  apply IH.
Qed.

Lemma aggregate_allTaxonomies_length submitted
    (outcomes : list (Settled Completed.t)) :
  length (allTaxonomies (aggregate submitted (allSettled outcomes))) =
    sum_list ((fun o => length (Spec.findings o)) <$> outcomes).
Proof.
  unfold aggregate. rewrite aggregate_loop. simpl.
  rewrite <- (allSettled_obj outcomes) at 2.
  induction (allSettled outcomes) as [|r reports IH]; simpl; [done|].
  rewrite length_app, IH. f_equal.
  destruct (obj r) as [v|e]; simpl; [|done]. by rewrite length_fmap.
Qed.

Lemma filter_length_cons {A} (f : A -> bool) x (l : list A) :
  length (List.filter f (x :: l)) =
    (if f x then 1 else 0) + length (List.filter f l).
Proof. simpl. by destruct (f x). Qed.

Lemma level_counts_known (all : list Tagged.t) :
  level_count "malicious" all + level_count "suspicious" all
  + level_count "info" all + level_count "safe" all
  + length (List.filter (fun t => negb (Spec2.known_level t)) all) =
  length all.
Proof.
  unfold level_count.
  induction all as [|t all IH]; [done|]. rewrite !filter_length_cons.
  cbn [length]. revert IH.
  generalize (length (List.filter
    (fun t => String.eqb (Taxonomy.level (Tagged.taxonomy t)) "malicious") all)).
  generalize (length (List.filter
    (fun t => String.eqb (Taxonomy.level (Tagged.taxonomy t)) "suspicious") all)).
  generalize (length (List.filter
    (fun t => String.eqb (Taxonomy.level (Tagged.taxonomy t)) "info") all)).
  generalize (length (List.filter
    (fun t => String.eqb (Taxonomy.level (Tagged.taxonomy t)) "safe") all)).
  generalize (length (List.filter
    (fun t => negb (Spec2.known_level t)) all)).
  intros n5 n4 n3 n2 n1 IH.
  unfold Spec2.known_level. cbn beta. cbn [Spec.severities existsb].
  destruct (String.eqb_spec (Taxonomy.level (Tagged.taxonomy t)) "malicious")
    as [->|_]; [simpl; lia|].
  destruct (String.eqb_spec (Taxonomy.level (Tagged.taxonomy t)) "suspicious")
    as [->|_]; [simpl; lia|].
  destruct (String.eqb_spec (Taxonomy.level (Tagged.taxonomy t)) "info")
    as [->|_]; [simpl; lia|].
  destruct (String.eqb_spec (Taxonomy.level (Tagged.taxonomy t)) "safe")
    as [_|_]; simpl; lia.
Qed.

End BulkEdges.

(** X9.  When every submission is rejected the handler still answers with a
    report, not flagged as an error: no wait is issued, [analyzersRun] is
    0, [results] is empty, every count is 0, and [submissionErrors] names
    every applicable analyzer with the message of its rejection. *)
Theorem all_submissions_rejected_report {W} (client : CortexClient W)
    (args : Args.t) (s : St W) (allAnalyzers : list Analyzer.t) :
  run_listed client s = Fulfilled allAnalyzers ->
  run_applicable client args s <> [] ->
  Spec.count_submitted (run_submit_outcomes client args s) = 0 ->
  exists tree,
    answers_report client args s tree /\
    member "analyzersRun" tree = Some (JNumber 0) /\
    member "analyzersFailed" tree =
      Some (JNumber (Z.of_nat (length (run_applicable client args s)))) /\
    member "summary" tree =
      Some (JObject [("malicious", JNumber 0); ("suspicious", JNumber 0);
                     ("info", JNumber 0); ("safe", JNumber 0)]) /\
    member "results" tree = Some (JArray []) /\
    member "submissionErrors" tree =
      Some (JArray
              (failed_json <$>
                 Spec.rejected_by_provider (run_applicable client args s)
                   (run_submit_outcomes client args s))) /\
    calls (handler client args s).2 =
      calls s ++ [CallListAnalyzers]
        ++ (submit_call args <$> run_applicable client args s).
Proof.
  intros Hlisted Hsome Hnone.
  pose proof (handler_done client args s _ Hlisted Hsome) as Hdone.
  destruct (submission_lists_cover_applicable client args s)
    as (Hrun & Hfailed & Hsum & _).
  assert (run_submitted client args s = []) as Hsubmitted.
  { apply length_zero_iff_nil. by rewrite Hrun. }
  assert (run_aggregate client args s = mkAggregate [] []) as Hagg.
  { unfold run_aggregate, run_reports, run_wait_outcomes.
    by rewrite Hsubmitted. }
  assert (run_failed_list client args s =
            Spec.rejected_by_provider (run_applicable client args s)
              (run_submit_outcomes client args s)) as Hnames.
  { pose proof (failed_list_when_rejections_lead
                  (run_applicable client args s)
                  (run_submit_outcomes client args s)
                  (run_submit_outcomes_length client args s)
                  (none_submitted_rejections_lead _ Hnone)) as Hlead.
    unfold run_failed_list, run_submissions.
    by rewrite rejected_reasons_allSettled. }
  assert (length (run_failed_list client args s) =
            length (run_applicable client args s)) as Hall.
  { rewrite Hsubmitted in Hsum. simpl in Hsum. done. }
  eexists. split; [exact Hdone|].
  split; [simpl; by rewrite Hsubmitted|].
  split; [simpl; by rewrite Hall|].
  split; [simpl; by rewrite Hagg|].
  split; [simpl; by rewrite Hagg|].
  split.
  - rewrite <- Hnames.
    destruct (run_failed_list client args s) as [|f failed] eqn:Hlist;
      [|done].
    simpl in Hall. symmetry in Hall. by apply length_zero_iff_nil in Hall.
  - destruct Hdone as (failed & _ & _ & ->). cbn [snd].
    rewrite run_s3_calls, run_s2_calls, run_s1_calls, Hsubmitted. simpl.
    by rewrite app_nil_r, <- app_assoc.
Qed.

Lemma all_submissions_rejected_report_witness :
  run_listed Fixtures2.client_all_rejected Fixtures.start =
    Fulfilled Fixtures.mockAnalyzers /\
  Spec.count_submitted
    (run_submit_outcomes Fixtures2.client_all_rejected Fixtures.args_ip
       Fixtures.start) = 0 /\
  exists tree,
    answers_report Fixtures2.client_all_rejected Fixtures.args_ip
      Fixtures.start tree /\
    member "submissionErrors" tree =
      Some (JArray
              [JObject [("analyzer", JString "VirusTotal_GetReport");
                        ("error", JString "Analyzer rate limited")];
               JObject [("analyzer", JString "AbuseIPDB");
                        ("error", JString "Analyzer rate limited")]]).
Proof.
  split; [reflexivity|]. split; [reflexivity|].
  destruct (all_submissions_rejected_report Fixtures2.client_all_rejected
              Fixtures.args_ip Fixtures.start Fixtures.mockAnalyzers)
    as (tree & Hanswer & _ & _ & _ & _ & Herrors & _);
    [reflexivity | discriminate | reflexivity |].
  exists tree. split; [exact Hanswer | exact Herrors].
Defined.

(** X10.  The four counts of the summary cover exactly the findings whose
    level is one of the four categories: the findings of the completed
    outcomes are those counted plus those of any other level, which are
    counted nowhere. *)
Theorem summary_counts_known_levels_only {W} (client : CortexClient W)
    (args : Args.t) (s : St W) :
  let all := allTaxonomies (run_aggregate client args s) in
  level_count "malicious" all + level_count "suspicious" all
  + level_count "info" all + level_count "safe" all
  + length (List.filter (fun t => negb (Spec2.known_level t)) all) =
  sum_list ((fun o => length (Spec.findings o)) <$>
              run_wait_outcomes client args s).
Proof.
  intros all. rewrite level_counts_known. apply aggregate_allTaxonomies_length.
Qed.

(** ** The analyzer tools *)

Section AnalyzerToolsProperties.
Context {W : Type} (client : CortexClient W).

Lemma find_first {A} (f : A -> bool) (l : list A) m :
  List.find f l = Some m ->
  exists before after,
    l = before ++ m :: after /\ f m = true /\
    Forall (fun a => f a = false) before.
Proof.
  induction l as [|x l IH]; simpl; [done|].
  destruct (f x) eqn:Hx.
  - intros [= ->]. by exists [], l.
  - intros (before & after & -> & Hm & Hbefore)%IH.
    exists (x :: before), after. split; [done|]. split; [done|].
    by constructor.
Qed.

Lemma find_none {A} (f : A -> bool) (l : list A) :
  (forall a, In a l -> f a = false) -> List.find f l = None.
Proof.
  induction l as [|x l IH]; simpl; [done|]. intros Hnone.
  rewrite (Hnone x) by by left. apply IH. intros a Ha. apply Hnone. by right.
Qed.

Lemma string_includes_empty s : string_includes s EmptyString = true.
Proof. by destruct s. Qed.

End AnalyzerToolsProperties.

(** X11.  For a data type that is not the empty string, the analyzers
    [cortex_list_analyzers] shows are the analyzers
    [cortex_analyze_observable] submits to from the same state, in the same
    order; when the listing fails, the list tool answers with the flagged
    text [Error listing analyzers: ...]. *)
Theorem listed_analyzers_are_those_analyzed {W} (client : CortexClient W)
    (args : Args.t) (s : St W) :
  Args.dataType args <> EmptyString ->
  list_analyzers_handler client (Some (Args.dataType args)) s =
    (match run_listed client s with
     | Fulfilled _ =>
         mkResponse
           (JSON_stringify
              (VArray (List.map analyzer_summary
                         (run_applicable client args s)))) false
     | Rejected error =>
         mkResponse (Some ("Error listing analyzers: " +:+ reason_text error))
           true
     end, run_s1 client s) /\
  calls (run_s2 client args s) =
    calls (run_s1 client s)
      ++ (submit_call args <$> run_applicable client args s).
Proof.
  intros Htype. split; [|apply run_s2_calls].
  unfold list_analyzers_handler, run_applicable, run_listed, run_s1,
    listed_analyzers, applicable_of.
  destruct (call_listAnalyzers client s) as [[analyzers|error] s1]; [|done].
  simpl. by destruct (Args.dataType args).
Qed.

Lemma listed_analyzers_are_those_analyzed_witness :
  Args.dataType Fixtures.args_ip <> EmptyString /\
  calls (run_s2 Fixtures.client_all_succeed Fixtures.args_ip Fixtures.start) =
    calls (run_s1 Fixtures.client_all_succeed Fixtures.start)
      ++ (submit_call Fixtures.args_ip <$>
            run_applicable Fixtures.client_all_succeed Fixtures.args_ip
              Fixtures.start).
Proof.
  split; [discriminate|].
  apply (listed_analyzers_are_those_analyzed Fixtures.client_all_succeed
           Fixtures.args_ip Fixtures.start).
  discriminate.
Defined.

(** X12.  Without a data type, or with the empty string, the list tool
    shows every analyzer: the text is that of the [cortex://analyzers]
    resource read from the same state.  When the listing fails the tool
    answers with a flagged text and the resource read rejects with the
    reason. *)
Theorem analyzers_resource_is_unfiltered_listing {W} (client : CortexClient W)
    (s : St W) :
  list_analyzers_handler client (Some EmptyString) s =
    list_analyzers_handler client None s /\
  (analyzers_resource client s).2 = (list_analyzers_handler client None s).2 /\
  match (analyzers_resource client s).1 with
  | Fulfilled contents =>
      (list_analyzers_handler client None s).1 =
        mkResponse (ResourceContents.text contents) false /\
      ResourceContents.uri contents = "cortex://analyzers" /\
      ResourceContents.mimeType contents = "application/json"
  | Rejected error =>
      (list_analyzers_handler client None s).1 =
        mkResponse (Some ("Error listing analyzers: " +:+ reason_text error))
          true
  end.
Proof.
  unfold list_analyzers_handler, analyzers_resource.
  by destruct (call_listAnalyzers client s) as [[analyzers|error] s1].
Qed.

(** X13.  When [cortex_run_analyzer_by_name] answers without the error
    flag, it has listed the analyzers and submitted once, to the first
    analyzer of the directory whose lower-cased name contains the
    lower-cased query and which supports the data type, an analyzer the
    bulk tool would submit to as well; it has issued no other call, and the
    answer names the analyzer used. *)
Theorem run_by_name_submits_to_first_match {W} (client : CortexClient W)
    (toLowerCase : string -> string) (args : ByNameArgs.t) (s : St W) :
  isError (run_by_name_handler client toLowerCase args s).1 = false ->
  exists analyzers before m after job,
    run_listed client s = Fulfilled analyzers /\
    analyzers = before ++ m :: after /\
    name_matches toLowerCase args m = true /\
    Forall (fun a => name_matches toLowerCase args a = false) before /\
    (forall timeout,
       In m (applicable_of (bulk_args_of args timeout) analyzers)) /\
    calls (run_by_name_handler client toLowerCase args s).2 =
      calls s ++ [CallListAnalyzers;
                  CallRunAnalyzer (Analyzer.id m) (by_name_request args)] /\
    text (run_by_name_handler client toLowerCase args s).1 =
      JSON_stringify (by_name_value m job).
Proof.
  unfold run_by_name_handler, run_listed.
  pose proof (run_s1_calls client s) as Hcalls. unfold run_s1 in Hcalls.
  destruct (call_listAnalyzers client s) as [[analyzers|error] s1]; [|done].
  destruct (List.find _ analyzers) as [m|] eqn:Hfind; [|done].
  unfold call_runAnalyzer.
  destruct (runAnalyzer client _ _ _) as [[job|error] w2]; [|done].
  intros _. apply find_first in Hfind as (before & after & -> & Hm & Hbefore).
  exists (before ++ m :: after), before, m, after, job.
  split; [done|]. split; [done|]. split; [done|]. split; [done|].
  split.
  - intros timeout. unfold applicable_of. apply filter_In. split.
    + apply in_elt.
    + unfold name_matches in Hm. by apply andb_prop in Hm as [_ Hm].
  - simpl in *. split; [|done]. by rewrite Hcalls, <- app_assoc.
Qed.

Lemma run_by_name_submits_to_first_match_witness :
  isError (run_by_name_handler Fixtures.client_all_succeed ascii_toLowerCase
             (ByNameArgs.mk "abuse" "ip" "8.8.8.8" 2 2) Fixtures.start).1 =
    false /\
  exists m,
    name_matches ascii_toLowerCase
      (ByNameArgs.mk "abuse" "ip" "8.8.8.8" 2 2) m = true /\
    calls (run_by_name_handler Fixtures.client_all_succeed ascii_toLowerCase
             (ByNameArgs.mk "abuse" "ip" "8.8.8.8" 2 2) Fixtures.start).2 =
      calls Fixtures.start
        ++ [CallListAnalyzers;
            CallRunAnalyzer (Analyzer.id m)
              (RunAnalyzerRequest.mk "8.8.8.8" "ip" 2 2 None)].
Proof.
  split; [reflexivity|].
  destruct (run_by_name_submits_to_first_match Fixtures.client_all_succeed
              ascii_toLowerCase (ByNameArgs.mk "abuse" "ip" "8.8.8.8" 2 2)
              Fixtures.start)
    as (analyzers & before & m & after & job & _ & _ & Hm & _ & _
        & Hcalls & _); [reflexivity|].
  exists m. split; [exact Hm | exact Hcalls].
Defined.

(** X14.  When no listed analyzer matches the name and supports the data
    type, [cortex_run_analyzer_by_name] answers with the flagged text
    [No analyzer found matching ...] and submits nothing: listing the
    analyzers is the only call. *)
Theorem run_by_name_without_match {W} (client : CortexClient W)
    (toLowerCase : string -> string) (args : ByNameArgs.t) (s : St W)
    (analyzers : list Analyzer.t) :
  run_listed client s = Fulfilled analyzers ->
  (forall a, In a analyzers -> name_matches toLowerCase args a = false) ->
  run_by_name_handler client toLowerCase args s =
    (mkResponse (Some (no_match_text args)) true, run_s1 client s) /\
  calls (run_by_name_handler client toLowerCase args s).2 =
    calls s ++ [CallListAnalyzers].
Proof.
  intros Hlisted Hnone.
  assert (run_by_name_handler client toLowerCase args s =
            (mkResponse (Some (no_match_text args)) true, run_s1 client s))
    as Hanswer.
  { unfold run_by_name_handler, run_listed, run_s1 in *.
    destruct (call_listAnalyzers client s) as [listed s1]. simpl in *.
    subst listed. by rewrite find_none. }
  split; [done|]. rewrite Hanswer. apply run_s1_calls.
Qed.

Lemma run_by_name_without_match_witness :
  run_listed Fixtures.client_all_succeed Fixtures.start =
    Fulfilled Fixtures.mockAnalyzers /\
  run_by_name_handler Fixtures.client_all_succeed ascii_toLowerCase
    (ByNameArgs.mk "URLhaus" "ip" "8.8.8.8" 2 2) Fixtures.start =
    (mkResponse
       (Some (no_match_text (ByNameArgs.mk "URLhaus" "ip" "8.8.8.8" 2 2)))
       true,
     mkSt (0, 0) [CallListAnalyzers]).
Proof.
  split; [reflexivity|].
  apply (run_by_name_without_match Fixtures.client_all_succeed
           ascii_toLowerCase (ByNameArgs.mk "URLhaus" "ip" "8.8.8.8" 2 2)
           Fixtures.start Fixtures.mockAnalyzers); [reflexivity|].
  intros a [<-|[<-|[<-|[]]]]; reflexivity.
Defined.

(** X15.  A name whose lower-cased form is the empty string matches every
    analyzer: the tool then submits to the first analyzer that supports
    the data type, the first analyzer of the bulk tool's applicable list. *)
Theorem run_by_name_empty_name_runs_first_applicable {W}
    (client : CortexClient W) (toLowerCase : string -> string)
    (args : ByNameArgs.t) (s : St W) (analyzers : list Analyzer.t)
    (m : Analyzer.t) (rest : list Analyzer.t) (timeout : Z) :
  toLowerCase (ByNameArgs.analyzerName args) = EmptyString ->
  run_listed client s = Fulfilled analyzers ->
  applicable_of (bulk_args_of args timeout) analyzers = m :: rest ->
  calls (run_by_name_handler client toLowerCase args s).2 =
    calls s ++ [CallListAnalyzers;
                CallRunAnalyzer (Analyzer.id m) (by_name_request args)].
Proof.
  intros Hempty Hlisted Happlicable.
  assert (List.find (name_matches toLowerCase args) analyzers = Some m)
    as Hfind.
  { revert Happlicable. unfold applicable_of, name_matches. simpl.
    rewrite Hempty. clear.
    induction analyzers as [|a analyzers IH]; simpl; [done|].
    rewrite string_includes_empty. simpl.
    destruct (includes _ _); [by intros [= -> _]|]. apply IH. }
  unfold run_by_name_handler, run_listed in *.
  pose proof (run_s1_calls client s) as Hcalls. unfold run_s1 in Hcalls.
  destruct (call_listAnalyzers client s) as [listed s1]. simpl in *.
  subst listed. rewrite Hfind. unfold call_runAnalyzer.
  destruct (runAnalyzer client _ _ _) as [[job|error] w2]; simpl;
    by rewrite Hcalls, <- app_assoc.
Qed.

Lemma run_by_name_empty_name_runs_first_applicable_witness :
  ascii_toLowerCase EmptyString = EmptyString /\
  calls (run_by_name_handler Fixtures.client_all_succeed ascii_toLowerCase
           (ByNameArgs.mk "" "domain" "example.com" 2 2) Fixtures.start).2 =
    [CallListAnalyzers;
     CallRunAnalyzer "VirusTotal_GetReport_3_1"
       (RunAnalyzerRequest.mk "example.com" "domain" 2 2 None)].
Proof.
  split; [reflexivity|].
  apply (run_by_name_empty_name_runs_first_applicable
           Fixtures.client_all_succeed ascii_toLowerCase
           (ByNameArgs.mk "" "domain" "example.com" 2 2) Fixtures.start
           Fixtures.mockAnalyzers
           (Analyzer.mk "VirusTotal_GetReport_3_1" "VirusTotal_GetReport"
              "3.1" "Get VirusTotal report" ["hash"; "ip"; "domain"; "url"])
           [Analyzer.mk "URLhaus_2_0" "URLhaus" "2.0"
              "Check URL against URLhaus database" ["url"; "domain"]]
           300); reflexivity.
Defined.

(** ** The job list *)

(** X16.  The [cortex://jobs/recent] resource is [cortex_list_jobs] without
    arguments: it issues the same search (every status, range [0-50],
    newest first), leaves the server in the same state, and shows the text
    the tool shows; when the search or a date fails, the tool answers with
    the flagged text [Error listing jobs: ...] and the resource read
    rejects with the reason. *)
Theorem recent_jobs_is_default_job_list {W} (client : JobsClient W)
    (toISOString : Z -> Thrown + string) (w : W) :
  list_jobs_search list_jobs_defaults = recent_jobs_search /\
  (recent_jobs_resource client toISOString w).2 =
    (list_jobs_handler client toISOString list_jobs_defaults w).2 /\
  match (recent_jobs_resource client toISOString w).1 with
  | Fulfilled contents =>
      (list_jobs_handler client toISOString list_jobs_defaults w).1 =
        mkResponse (ResourceContents.text contents) false /\
      ResourceContents.uri contents = "cortex://jobs/recent"
  | Rejected error =>
      (list_jobs_handler client toISOString list_jobs_defaults w).1 =
        mkResponse (Some ("Error listing jobs: " +:+ reason_text error)) true
  end.
Proof.
  assert (list_jobs_search list_jobs_defaults = recent_jobs_search) as Hsame
    by reflexivity.
  split; [done|].
  unfold recent_jobs_resource, list_jobs_handler. rewrite Hsame.
  destruct (searchJobs client recent_jobs_search w) as [[jobs|error] w'];
    [|done].
  by destruct (map_throwing _ jobs 0).
Qed.

(** X17.  The query of [cortex_list_jobs] has one clause per filter that is
    given and not empty, under [_and]; a filter given as the empty string
    counts as absent; and with no filter left the query is the wildcard on
    [status], never an empty [_and]. *)
Theorem list_jobs_query_clauses (args : ListJobsArgs.t) :
  length (must_of args) = filters_given args /\
  query_of args = query_of (without_empty_filters args) /\
  query_of args <> VObject [("_and", VArray [])] /\
  match filters_given args with
  | 0 => query_of args = field_clause "status" "*"
  | S _ => query_of args = VObject [("_and", VArray (must_of args))]
  end.
Proof.
  destruct args as [[[|c1 d1]|] [[|c2 d2]|] limit [[|c3 d3]|]];
    repeat split; done.
Qed.

Section JobListProperties.

Lemma map_throwing_throws {A B} (f : A -> nat -> Thrown + B) (l : list A) x :
  In x l -> (forall i, exists error, f x i = inl error) ->
  forall i, exists error, map_throwing f l i = inl error.
Proof.
  intros Hx Hthrows. induction l as [|y l IH]; [done|]. intros i. simpl.
  destruct (f y i) as [error|v] eqn:Hy; [by eexists|].
  destruct Hx as [->|Hx].
  - destruct (Hthrows i) as [error Herror]. congruence.
  - destruct (IH Hx (S i)) as [error ->]. by eexists.
Qed.

End JobListProperties.

(** X18.  One date that cannot be rendered fails the whole job list: when
    a found job has a [startDate] other than 0 for which [toISOString]
    throws, [cortex_list_jobs] shows no job at all but a flagged text
    [Error listing jobs: ...]. *)
Theorem one_unrenderable_date_fails_the_list {W} (client : JobsClient W)
    (toISOString : Z -> Thrown + string) (args : ListJobsArgs.t) (w : W)
    (jobs : list JobInfo.t) (w' : W) (j : JobInfo.t) (ms : Z)
    (error : Thrown) :
  searchJobs client (list_jobs_search args) w = (Fulfilled jobs, w') ->
  In j jobs ->
  JobInfo.startDate j = Some ms -> ms <> 0%Z ->
  toISOString ms = inl error ->
  exists reason,
    list_jobs_handler client toISOString args w =
      (mkResponse (Some ("Error listing jobs: " +:+ reason_text reason)) true,
       w').
Proof.
  intros Hfound Hj Hstart Hms Herror. unfold list_jobs_handler.
  rewrite Hfound.
  destruct (map_throwing_throws (job_summary toISOString) jobs j Hj)
    with (i := 0) as [reason ->]; [|by eexists].
  intros i. unfold job_summary, date_value. rewrite Hstart.
  rewrite (proj2 (Z.eqb_neq _ _) Hms), Herror. by eexists.
Qed.

Lemma one_unrenderable_date_fails_the_list_witness :
  searchJobs jobs_client_bad_date (list_jobs_search list_jobs_defaults) 0 =
    (Fulfilled jobs_bad_date, 1) /\
  exists reason,
    list_jobs_handler jobs_client_bad_date fixture_toISOString
      list_jobs_defaults 0 =
      (mkResponse (Some ("Error listing jobs: " +:+ reason_text reason)) true,
       1).
Proof.
  split; [reflexivity|].
  apply (one_unrenderable_date_fails_the_list jobs_client_bad_date
           fixture_toISOString list_jobs_defaults 0 jobs_bad_date 1
           (JobInfo.mk "job_2" None "Waiting" None None
              (Some 8640000000000001%Z) None)
           8640000000000001%Z
           (ThrownError "RangeError" "Invalid time value"));
    [reflexivity | right; left; reflexivity | reflexivity | discriminate
    | reflexivity].
Defined.

(** ** The requests of a bulk run *)

(** X19.  A bulk run that finds applicable analyzers issues, in this order,
    one GET of [/analyzer], one POST per applicable analyzer to
    [/analyzer/<id>/run] with the same body (data, dataType, tlp and pap,
    no message), and one GET per Submitted task of
    [/job/<jobId>/waitreport?atMost=<timeout>second], the identifiers
    percent-encoded; it issues no other request. *)
Theorem bulk_run_requests {W} (client : CortexClient W) (args : Args.t)
    (s : St W) (allAnalyzers : list Analyzer.t) :
  run_listed client s = Fulfilled allAnalyzers ->
  run_applicable client args s <> [] ->
  exists issued,
    calls (handler client args s).2 = calls s ++ issued /\
    request_of_call <$> issued =
      [("/analyzer", RequestInit.mk None None)]
      ++ ((fun a =>
             ("/analyzer/" +:+ encodeURIComponent (Analyzer.id a) +:+ "/run",
              RequestInit.mk (Some "POST")
                (Some (bulk_submission_body args))))
            <$> run_applicable client args s)
      ++ ((fun job =>
             ("/job/" +:+ encodeURIComponent (Submitted.jobId job)
              +:+ "/waitreport?atMost=" +:+ pretty (Args.timeout args)
              +:+ "second", RequestInit.mk None None))
            <$> run_submitted client args s).
Proof.
  intros Hlisted Hsome.
  destruct (handler_done client args s _ Hlisted Hsome)
    as (failed & _ & _ & ->). cbn [snd].
  exists ([CallListAnalyzers]
            ++ (submit_call args <$> run_applicable client args s)
            ++ (wait_call args <$> run_submitted client args s)).
  split.
  - rewrite run_s3_calls, run_s2_calls, run_s1_calls.
    by rewrite <- !app_assoc.
  - rewrite !fmap_app, <- !list_fmap_compose. done.
Qed.

Lemma bulk_run_requests_witness :
  run_listed Fixtures.client_partial_failure Fixtures.start =
    Fulfilled Fixtures.mockAnalyzers /\
  exists issued,
    calls (handler Fixtures.client_partial_failure Fixtures.args_ip
             Fixtures.start).2 = calls Fixtures.start ++ issued /\
    fst <$> (request_of_call <$> issued) =
      ["/analyzer"; "/analyzer/VirusTotal_GetReport_3_1/run";
       "/analyzer/AbuseIPDB_1_0/run"; "/job/job_1/waitreport?atMost=60second"].
Proof.
  split; [reflexivity|].
  destruct (bulk_run_requests Fixtures.client_partial_failure
              Fixtures.args_ip Fixtures.start Fixtures.mockAnalyzers)
    as (issued & Hcalls & Hrequests); [reflexivity | discriminate |].
  exists issued. split; [exact Hcalls|]. rewrite Hrequests. reflexivity.
Defined.

(** ** The configuration and the requests *)

(** X20.  [CORTEX_VERIFY_SSL] has no effect on what the client fetches:
    whatever its value, [getConfig] fails with the same error or gives a
    configuration with the same request URLs and the same headers, the
    [Authorization] header being [Bearer] and the value of
    [CORTEX_API_KEY] as it is. *)
Theorem verify_ssl_changes_no_request (env : gmap string string)
    (value : string) :
  match getConfig env, getConfig (<["CORTEX_VERIFY_SSL" := value]> env) with
  | inr config, inr config' =>
      (forall path, request_url config path = request_url config' path) /\
      request_headers config = request_headers config' /\
      exists apiKey,
        env !! "CORTEX_API_KEY" = Some apiKey /\
        request_headers config =
          [("Authorization", "Bearer " +:+ apiKey);
           ("Content-Type", "application/json")]
  | inl error, inl error' => error = error'
  | _, _ => False
  end.
Proof.
  unfold getConfig. rewrite !lookup_insert_ne by done.
  destruct (env_missing (env !! "CORTEX_URL")); [done|].
  destruct (env !! "CORTEX_API_KEY") as [[|c apiKey]|] eqn:Hkey; simpl;
    try done.
  split; [done|]. split; [done|]. by eexists.
Qed.
